(** * Firebase Analytics CSV dashboard: ingestion and aggregation pipeline

    A shallow embedding of [CSVAnalyticsRepository]
    (repositories/csv-analytics-repository.ts) and of
    [CSVAnalyticsService.analyzeFeatureUsage]
    (services/csv-analytics-service.ts), with the properties of the file
    locator, the sectioned parser, the loaders and the two feature
    aggregators.

    Conventions of the model.
    - A JavaScript string is a [string] of 8-bit characters: the text is
      taken to be ASCII, so [trim] removes the ASCII white space and
      [toLowerCase] folds A-Z only.
    - A JavaScript number is a [number]: NaN, one of the two infinities, or an
      exact rational.  Arithmetic is exact: rounding to binary64, overflow and
      the sign of zero are not modelled.
    - A [Map] is an insertion-ordered association list with unique keys
      ([omap]); [Array.prototype.sort] is a stable insertion sort. *)

From Stdlib Require Import List String Ascii Bool Arith ZArith QArith Qminmax.
From Stdlib Require Import Lia Lqa Permutation Sorted.
From Stdlib Require Qcanon.
Import ListNotations.

Local Close Scope Q_scope.
Local Close Scope Z_scope.
Local Open Scope string_scope.
Local Open Scope list_scope.
Local Open Scope nat_scope.

(* ================================================================== *)
(** * JavaScript strings *)
(* ================================================================== *)

Module JsString.

(** White space removed by [String.prototype.trim] (ASCII part). *)
Definition isSpace (c : ascii) : bool :=
  match nat_of_ascii c with
  | 9 | 10 | 11 | 12 | 13 | 32 => true
  | _ => false
  end.

Definition isDigit (c : ascii) : bool :=
  (48 <=? nat_of_ascii c) && (nat_of_ascii c <=? 57).

Definition digitVal (c : ascii) : Z := Z.of_nat (nat_of_ascii c - 48).

Definition isEmpty (s : string) : bool :=
  match s with EmptyString => true | _ => false end.

(** A string used as a condition: the empty string is falsy. *)
Definition truthy (s : string) : bool := negb (isEmpty s).

Fixpoint trimStart (s : string) : string :=
  match s with
  | String c r => if isSpace c then trimStart r else s
  | EmptyString => EmptyString
  end.

Fixpoint trimEnd (s : string) : string :=
  match s with
  | String c r =>
      let r' := trimEnd r in
      if isSpace c && isEmpty r' then EmptyString else String c r'
  | EmptyString => EmptyString
  end.

Definition trim (s : string) : string := trimEnd (trimStart s).

(** [s.startsWith(p)] *)
Fixpoint startsWith (s p : string) : bool :=
  match p, s with
  | EmptyString, _ => true
  | String a p', String b s' => Ascii.eqb a b && startsWith s' p'
  | String _ _, EmptyString => false
  end.

(** [s.includes(p)] *)
Fixpoint includes (s p : string) : bool :=
  startsWith s p ||
  match s with
  | String _ s' => includes s' p
  | EmptyString => false
  end.

(** [s.endsWith(p)] *)
Fixpoint endsWith (s p : string) : bool :=
  String.eqb s p ||
  match s with
  | String _ s' => endsWith s' p
  | EmptyString => false
  end.

Definition lowerChar (c : ascii) : ascii :=
  let n := nat_of_ascii c in
  if (65 <=? n) && (n <=? 90) then ascii_of_nat (n + 32) else c.

Fixpoint toLowerCase (s : string) : string :=
  match s with
  | String c r => String (lowerChar c) (toLowerCase r)
  | EmptyString => EmptyString
  end.

Fixpoint drop (n : nat) (s : string) : string :=
  match n, s with
  | S n', String _ r => drop n' r
  | _, _ => s
  end.

(** [s.replace(p, r)] with a string pattern: the first occurrence only. *)
Fixpoint replace (s p r : string) : string :=
  if startsWith s p then (r ++ drop (String.length p) s)%string
  else match s with
       | String c s' => String c (replace s' p r)
       | EmptyString => EmptyString
       end.

(** [s.split(sep)] for a one-character separator. *)
Fixpoint split (sep : ascii) (s : string) : list string :=
  match s with
  | EmptyString => [EmptyString]
  | String c r =>
      if Ascii.eqb c sep then EmptyString :: split sep r
      else match split sep r with
           | h :: t => String c h :: t
           | [] => [String c EmptyString]
           end
  end.

(** [a.join(sep)] *)
Definition join (sep : string) (l : list string) : string :=
  String.concat sep l.

Definition LF : ascii := ascii_of_nat 10.
Definition comma : ascii := ","%char.

(** The longest prefix of decimal digits and what follows it. *)
Fixpoint spanDigits (s : string) : string * string :=
  match s with
  | String c r =>
      if isDigit c then let (d, t) := spanDigits r in (String c d, t)
      else (EmptyString, s)
  | EmptyString => (EmptyString, EmptyString)
  end.

(** The value of a string of decimal digits. *)
Fixpoint digitsVal (acc : Z) (s : string) : Z :=
  match s with
  | String c r => digitsVal (10 * acc + digitVal c)%Z r
  | EmptyString => acc
  end.

(** [n] written with at least [w] digits ([padStart(w, '0')]). *)
Fixpoint natDigits (fuel n : nat) (acc : string) : string :=
  match fuel with
  | O => acc
  | S f =>
      let acc' := String (ascii_of_nat (48 + n mod 10)) acc in
      if n / 10 =? 0 then acc' else natDigits f (n / 10) acc'
  end.

Fixpoint zeros (k : nat) : string :=
  match k with O => EmptyString | S k' => String "0" (zeros k') end.

Definition padded (w n : nat) : string :=
  let d := natDigits (S n) n EmptyString in
  (zeros (w - String.length d) ++ d)%string.

End JsString.

Import JsString.

(* ================================================================== *)
(** * JavaScript numbers *)
(* ================================================================== *)

Module JsNumber.

(** Exact model of a [number]: every finite result is kept in lowest
    terms ([Qred]), so that equal values are equal terms. *)
Inductive number : Type :=
  | NaN
  | Inf (negative : bool)
  | Fin (q : Q).

Definition of_Z (z : Z) : number := Fin (inject_Z z).
Definition zero : number := of_Z 0.
Definition one : number := of_Z 1.

Definition qneg (q : Q) : bool :=
    match Qcompare q 0 with Lt => true | _ => false end.
Definition qpos (q : Q) : bool :=
    match Qcompare q 0 with Gt => true | _ => false end.
Definition qzero (q : Q) : bool :=
    match Qcompare q 0 with Eq => true | _ => false end.

(** [a + b] *)
Definition add (a b : number) : number :=
  match a, b with
  | NaN, _ | _, NaN => NaN
  | Inf s, Inf t => if Bool.eqb s t then Inf s else NaN
  | Inf s, Fin _ => Inf s
  | Fin _, Inf t => Inf t
  | Fin p, Fin q => Fin (Qred (Qplus p q))
  end.

Definition neg (a : number) : number :=
  match a with
  | NaN => NaN
  | Inf s => Inf (negb s)
  | Fin q => Fin (Qred (Qopp q))
  end.

(** [a - b] *)
Definition sub (a b : number) : number := add a (neg b).

(** [Math.max(a, b)] *)
Definition max (a b : number) : number :=
  match a, b with
  | NaN, _ | _, NaN => NaN
  | Inf false, _ | _, Inf false => Inf false
  | Inf true, x | x, Inf true => x
  | Fin p, Fin q => Fin (Qred (Qmax p q))
  end.

(** [a / b] *)
Definition div (a b : number) : number :=
  match a, b with
  | NaN, _ | _, NaN => NaN
  | Inf _, Inf _ => NaN
  | Inf s, Fin q => Inf (xorb s (qneg q))
  | Fin _, Inf _ => Fin 0
  | Fin p, Fin q =>
      if qzero q then (if qzero p then NaN else Inf (qneg p))
      else Fin (Qred (Qdiv p q))
  end.

(** [ToBoolean]: zero and NaN are falsy. *)
Definition toBoolean (a : number) : bool :=
  match a with
  | NaN => false
  | Inf _ => true
  | Fin q => negb (qzero q)
  end.

(** [a || b] on numbers. *)
Definition or (a b : number) : number := if toBoolean a then a else b.

(** [a > 0]; false for NaN. *)
Definition positive (a : number) : bool :=
  match a with
  | NaN => false
  | Inf s => negb s
  | Fin q => qpos q
  end.

Definition isNaN (a : number) : bool :=
  match a with NaN => true | _ => false end.

(** A leading sign of a numeric literal. *)
Definition takeSign (s : string) : bool * string :=
  match s with
  | String "-" r => (true, r)
  | String "+" r => (false, r)
  | _ => (false, s)
  end.

Definition signed (negative : bool) (z : Z) : Z :=
  if negative then Z.opp z else z.

(** [parseInt(s, 10)]: leading white space, an optional sign, then the
    longest run of decimal digits; NaN when there is no digit. *)
Definition parseInt (s : string) : number :=
  let (sg, body) := takeSign (trimStart s) in
  let (ds, _) := spanDigits body in
  if isEmpty ds then NaN else of_Z (signed sg (digitsVal 0 ds)).

(** The exponent part [e±ddd] of a decimal literal, 0 when absent. *)
Definition exponent (s : string) : Z :=
  match s with
  | String c r =>
      if Ascii.eqb c "e" || Ascii.eqb c "E" then
        let (sg, r') := takeSign r in
        let (ds, _) := spanDigits r' in
        if isEmpty ds then 0%Z else signed sg (digitsVal 0 ds)
      else 0%Z
  | EmptyString => 0%Z
  end.

(** [parseFloat(s)]: leading white space, then the longest prefix that is
    a StrDecimalLiteral; NaN when there is none. *)
Definition parseFloat (s : string) : number :=
  let (sg, body) := takeSign (trimStart s) in
  if startsWith body "Infinity" then Inf sg else
  let (ip, r1) := spanDigits body in
  let (fp, r2) :=
    match r1 with
    | String "." r => spanDigits r
    | _ => (EmptyString, r1)
    end in
  if isEmpty ip && isEmpty fp then NaN else
  let m := signed sg (digitsVal 0 (ip ++ fp)%string) in
  let e := (exponent r2 - Z.of_nat (String.length fp))%Z in
  Fin (Qred (Qmult (inject_Z m) (Qpower (inject_Z 10) e))).

End JsNumber.

Import JsNumber.

(* ================================================================== *)
(** * Insertion-ordered maps *)
(* ================================================================== *)

(** A JavaScript [Map] (and an object used as a record) keyed by strings:
    [set] on a present key replaces the value where it stands, [set] on a new
    key appends, and iteration follows the order of first insertion. *)
Module OMap.
Section Defs.
Context {V : Type}.

Definition omap : Type := list (string * V).

Definition empty : omap := [].

Fixpoint get (k : string) (m : omap) : option V :=
  match m with
  | [] => None
  | (k', v) :: r => if String.eqb k k' then Some v else get k r
  end.

Fixpoint set (k : string) (v : V) (m : omap) : omap :=
  match m with
  | [] => [(k, v)]
  | (k', v') :: r =>
      if String.eqb k k' then (k', v) :: r else (k', v') :: set k v r
  end.

Definition keys (m : omap) : list string := map fst m.
Definition values (m : omap) : list V := map snd m.
End Defs.
Arguments omap : clear implicits.
End OMap.

(* ================================================================== *)
(** * Results and array helpers *)
(* ================================================================== *)

(** A call either returns or throws an [Error] with a message. *)
Inductive result (A : Type) : Type :=
| Ok (a : A)
| Throw (msg : string).
Arguments Ok {A} a.
Arguments Throw {A} msg.

(** [l.slice(a, b)] *)
Definition slice {A : Type} (a b : nat) (l : list A) : list A :=
  firstn (b - a) (skipn a l).

(** [l.map((x, index) => f x index)], counting from [i]. *)
Fixpoint mapiFrom {A B : Type} (i : nat) (f : A -> nat -> B) (l : list A) : list B :=
  match l with
  | [] => []
  | x :: r => f x i :: mapiFrom (S i) f r
  end.

Definition mapi {A B : Type} (f : A -> nat -> B) (l : list A) : list B :=
  mapiFrom 0 f l.

(** [[...new Set(l)]]: the first occurrence of every element, in order. *)
Fixpoint dedupFrom (seen l : list string) : list string :=
  match l with
  | [] => []
  | x :: r =>
      if existsb (String.eqb x) seen then dedupFrom seen r
      else x :: dedupFrom (x :: seen) r
  end.

Definition dedup (l : list string) : list string := dedupFrom [] l.

(** [Array.prototype.sort] with a comparator, as a stable insertion sort:
    [after a b] says that the comparator is positive at [(a, b)], that is,
    [a] must come after [b]. *)
Section Sort.
Context {A : Type} (after : A -> A -> bool).

Fixpoint insertBy (x : A) (l : list A) : list A :=
  match l with
  | [] => [x]
  | y :: r => if after x y then y :: insertBy x r else x :: l
  end.

Definition sortBy (l : list A) : list A := fold_right insertBy [] l.

(** [a] may stand before [b]: the comparator is not positive at [(a, b)]. *)
Definition mayPrecede (a b : A) : Prop := after a b = false.
End Sort.

(* ================================================================== *)
(** * Parsed rows and the folder on disk *)
(* ================================================================== *)

(** A row record of the parser: column name to raw string. *)
Definition row : Type := OMap.omap string.

(** [record[col]]: [None] is [undefined]. *)
Definition field (record : row) (col : string) : option string :=
  OMap.get col record.

(** [record[col]] used as a condition. *)
Definition present (v : option string) : bool :=
  match v with
  | Some s => truthy s
  | None => false
  end.

(** [v || d] for an optional string. *)
Definition orElse (v : option string) (d : string) : string :=
  match v with
  | Some s => if truthy s then s else d
  | None => d
  end.

(** The folder [csvDir] as the repository sees it through [fs]. *)
Record Disk : Type := {
  csvDir : string;
  existsSync : bool;                 (* fs.existsSync(csvDir) *)
  readdirSync : list string;         (* fs.readdirSync(csvDir) *)
  readFileSync : string -> string    (* fs.readFileSync(path, 'utf-8') *)
}.

(** [path.join(dir, name)] for a plain entry name. *)
Definition pathJoin (dir name : string) : string :=
  (dir ++ "/" ++ name)%string.

(* ================================================================== *)
(** * Calendar days (date-fns) *)
(* ================================================================== *)

(** A [Date] at local midnight is the number of its day, counted from
    1970-01-01; the proleptic Gregorian calendar converts both ways. *)
Module Calendar.
Local Open Scope Z_scope.

Definition isLeap (y : Z) : bool :=
  ((y mod 4 =? 0) && negb (y mod 100 =? 0)) || (y mod 400 =? 0).

Definition daysInMonth (y m : Z) : Z :=
  if m =? 2 then (if isLeap y then 29 else 28)
  else if (m =? 4) || (m =? 6) || (m =? 9) || (m =? 11) then 30
  else 31.

Definition daysFromCivil (y m d : Z) : Z :=
  let y' := if m <=? 2 then y - 1 else y in
  let era := y' / 400 in
  let yoe := y' - era * 400 in
  let doy := (153 * (if 2 <? m then m - 3 else m + 9) + 2) / 5 + d - 1 in
  let doe := yoe * 365 + yoe / 4 - yoe / 100 + doy in
  era * 146097 + doe - 719468.

Definition civilFromDays (z : Z) : Z * Z * Z :=
  let z' := z + 719468 in
  let era := z' / 146097 in
  let doe := z' - era * 146097 in
  let yoe := (doe - doe / 1460 + doe / 36524 - doe / 146096) / 365 in
  let doy := doe - (365 * yoe + yoe / 4 - yoe / 100) in
  let mp := (5 * doy + 2) / 153 in
  let d := doy - (153 * mp + 2) / 5 + 1 in
  let m := if mp <? 10 then mp + 3 else mp - 9 in
  let y := yoe + era * 400 in
  ((if m <=? 2 then y + 1 else y), m, d).

(** [parseISO] of a [yyyy-MM-dd] string; [None] is an Invalid Date. *)
Definition parseISO (s : string) : option Z :=
  let ys := String.substring 0 4 s in
  let ms := String.substring 5 2 s in
  let ds := String.substring 8 2 s in
  if (String.length s =? 10)%nat
     && String.eqb (String.substring 4 1 s) "-"
     && String.eqb (String.substring 7 1 s) "-"
     && forallb isDigit (list_ascii_of_string (ys ++ ms ++ ds)%string)
  then
    let y := digitsVal 0 ys in
    let m := digitsVal 0 ms in
    let d := digitsVal 0 ds in
    if (1 <=? m) && (m <=? 12) && (1 <=? d) && (d <=? daysInMonth y m)
    then Some (daysFromCivil y m d)
    else None
  else None.

(** [format(date, 'yyyy-MM-dd')] *)
Definition format (z : Z) : string :=
  let '(y, m, d) := civilFromDays z in
  (padded 4 (Z.to_nat y) ++ "-" ++ padded 2 (Z.to_nat m) ++ "-"
     ++ padded 2 (Z.to_nat d))%string.

(** [eachDayOfInterval({start, end})]: every day from [start] to [end];
    an interval whose end lies before its start is invalid ([None]). *)
Definition eachDayOfInterval (start end_ : Z) : option (list Z) :=
  if start <=? end_
  then Some (map (fun i => start + Z.of_nat i)
                 (seq 0 (Z.to_nat (end_ - start + 1))))
  else None.

End Calendar.

(* ================================================================== *)
(** * The repository: locator, sectioned parser, loaders *)
(* ================================================================== *)

Record AnalyticsEvent : Type := {
  eventName : string;
  eventCount : number;
  totalUsers : number;
  eventCountPerUser : number;
  totalRevenue : number
}.

Record ScreenView : Type := {
  screenClass : string;
  views : number;
  activeUsers : number;
  viewsPerActiveUser : number;
  avgEngagementTime : number;
  sv_eventCount : number;     (* ScreenView.eventCount *)
  keyEvents : number;
  sv_totalRevenue : number    (* ScreenView.totalRevenue *)
}.

Record DailyActiveUsers : Type := {
  date : string;
  activeUsers30Days : number;
  activeUsers7Days : number;
  activeUsers1Day : number
}.

Definition newline : string := String LF EmptyString.

Module Repository.

(** ** findCSVFile *)

Definition findCSVFile (d : Disk) (pattern : string) : option string :=
  if negb (existsSync d) then None
  else
    let files := readdirSync d in
    (* Try exact match first *)
    if existsb (String.eqb pattern) files then Some (pathJoin (csvDir d) pattern)
    else
      (* Try pattern matching *)
      let basePattern := replace pattern ".csv" "" in
      let matchingFile :=
        find (fun file =>
                let fileName := toLowerCase file in
                let patternLower := toLowerCase basePattern in
                startsWith fileName patternLower && endsWith fileName ".csv")
             files in
      match matchingFile with
      | Some file => if truthy file then Some (pathJoin (csvDir d) file) else None
      | None => None
      end.

(** ** parseCSV *)

(** The guard of the header scan: the trimmed line is neither empty nor a
    comment, and it contains the section marker (a comma when no marker is
    given; an empty marker is falsy and counts as none). *)
Definition isHeaderLine (sectionHeader : option string) (raw : string) : bool :=
  let line := trim raw in
  if isEmpty line || startsWith line "#" then false
  else
    match sectionHeader with
    | Some h => if truthy h then includes line h else includes line ","
    | None => includes line ","
    end.

(** The test of the inner loop: the start of the next section. *)
Definition isSectionStart (l : string) : bool :=
  startsWith (trim l) "#" && includes l "Start date:".

(** The inner loop [for (j = ...; j < lines.length; j++)] over the lines
    from index [j] on: the index of the first section start, or
    [lines.length]. *)
Fixpoint findDataEnd (j : nat) (rest : list string) : nat :=
  match rest with
  | [] => j
  | l :: rest' => if isSectionStart l then j else findDataEnd (S j) rest'
  end.

(** The outer loop over the lines from index [i] on:
    [(headerIndex, dataStartIndex, dataEndIndex)], or [None] when
    [headerIndex] stays -1. *)
Fixpoint findHeader (sectionHeader : option string) (i : nat) (rest : list string)
  : option (nat * nat * nat) :=
  match rest with
  | [] => None
  | l :: rest' =>
      if isHeaderLine sectionHeader l
      then Some (i, S i, findDataEnd (S i) rest')
      else findHeader sectionHeader (S i) rest'
  end.

(** The filter on the data lines: not blank, not a comment. *)
Definition isDataLine (line : string) : bool :=
  let trimmed := trim line in
  truthy trimmed && negb (startsWith trimmed "#").

(** The [catch] branch: split on commas, zip with the header columns. *)
Definition manualRecord (headerCols : list string) (dataLine : string) : row :=
  let cols := map trim (split comma dataLine) in
  fold_left
    (fun record '(col, idx) => OMap.set col (nth idx cols "") record)
    (mapi (fun col idx => (col, idx)) headerCols)
    OMap.empty.

Definition manualParse (header : string) (dataLines : list string) : list row :=
  let headerCols := map trim (split comma header) in
  map (manualRecord headerCols) dataLines.

Section WithParser.
(** [parse] of csv-parse/sync with the options the source passes
    (columns, skip_empty_lines, trim, relax_column_count, relax_quotes);
    [None] when it throws. *)
Variable parse : string -> option (list row).

(** The header line and the surviving data lines of the section. *)
Definition sectionLines (lines : list string) (sectionHeader : option string)
  : option (string * list string) :=
  match findHeader sectionHeader 0 lines with
  | None => None
  | Some (headerIndex, dataStartIndex, dataEndIndex) =>
      let header := nth headerIndex lines "" in
      let dataLines := filter isDataLine (slice dataStartIndex dataEndIndex lines) in
      Some (header, dataLines)
  end.

Definition parseContent (content : string) (sectionHeader : option string) : list row :=
  let lines := split LF content in
  match sectionLines lines sectionHeader with
  | None => []
  | Some (header, dataLines) =>
      if List.length dataLines =? 0 then []
      else
        match parse (join newline (header :: dataLines)) with
        | Some records => records
        | None => manualParse header dataLines
        end
  end.

Definition parseCSV (d : Disk) (filePath : string) (sectionHeader : option string)
  : list row :=
  parseContent (readFileSync d filePath) sectionHeader.

(** ** The loaders *)

(** [content.match(/<label>(\d{8})/)]: the eight digits after the first
    place where the label is followed by eight digits. *)
Definition eightDigits (s : string) : option string :=
  let d := String.substring 0 8 s in
  if (String.length d =? 8) && forallb isDigit (list_ascii_of_string d)
  then Some d else None.

Fixpoint matchDate (label s : string) : option string :=
  match (if startsWith s label
         then eightDigits (drop (String.length label) s) else None) with
  | Some d => Some d
  | None =>
      match s with
      | String _ r => matchDate label r
      | EmptyString => None
      end
  end.

(** [`${s.substring(0, 4)}-${s.substring(4, 6)}-${s.substring(6, 8)}`] *)
Definition isoOf (s : string) : string :=
  (String.substring 0 4 s ++ "-" ++ String.substring 4 2 s ++ "-"
     ++ String.substring 6 2 s)%string.

(** The rows the overview loader keeps. *)
Definition overviewRow (record : row) : bool :=
  present (field record "Nth day") && present (field record "30 days").

Definition toDailyActiveUsers (allDates : list Z) (startDate : Z)
           (record : row) (index : nat) : DailyActiveUsers :=
  let date := nth index allDates startDate in   (* allDates[index] || startDate *)
  {| date := Calendar.format date;
     activeUsers30Days := parseInt (orElse (field record "30 days") "0");
     activeUsers7Days := parseInt (orElse (field record "7 days") "0");
     activeUsers1Day := parseInt (orElse (field record "1 day") "0") |}.

Definition loadOverviewData (d : Disk) : result (list DailyActiveUsers) :=
  match findCSVFile d "Firebase_overview.csv" with
  | None => Throw ("File not found: Firebase_overview*.csv in " ++ csvDir d)
  | Some filePath =>
      let records := parseCSV d filePath (Some "30 days") in
      let content := readFileSync d filePath in
      match matchDate "Start date: " content, matchDate "End date: " content with
      | Some startDateStr, Some endDateStr =>
          match Calendar.parseISO (isoOf startDateStr),
                Calendar.parseISO (isoOf endDateStr) with
          | Some startDate, Some endDate =>
              match Calendar.eachDayOfInterval startDate endDate with
              | Some allDates =>
                  Ok (mapi (toDailyActiveUsers allDates startDate)
                           (filter overviewRow records))
              | None => Throw "Invalid interval"
              end
          | _, _ => Throw "Invalid interval"
          end
      | _, _ => Throw "Could not extract date range from CSV"
      end
  end.

Definition screenRow (record : row) : bool :=
  present (field record "Page title and screen class")
  && present (field record "Views").

Definition toScreenView (record : row) : ScreenView :=
  {| screenClass := orElse (field record "Page title and screen class") "";
     views := parseInt (orElse (field record "Views") "0");
     activeUsers := parseInt (orElse (field record "Active users") "0");
     viewsPerActiveUser :=
       parseFloat (orElse (field record "Views per active user") "0");
     avgEngagementTime :=
       parseFloat (orElse (field record "Average engagement time per active user") "0");
     sv_eventCount := parseInt (orElse (field record "Event count") "0");
     keyEvents := parseInt (orElse (field record "Key events") "0");
     sv_totalRevenue := parseFloat (orElse (field record "Total revenue") "0") |}.

(** [a || b] on the results of [findCSVFile]. *)
Definition orPath (a b : option string) : option string :=
  match a with
  | Some p => if truthy p then a else b
  | None => b
  end.

Definition loadScreenViewsData (d : Disk) : result (list ScreenView) :=
  match orPath (findCSVFile d "Pages_and_screens_Page_title_and_screen_class1.csv")
               (findCSVFile d "Pages_and_screens_Page_title_and_screen_class.csv") with
  | None =>
      Throw ("File not found: Pages_and_screens_Page_title_and_screen_class*.csv in "
               ++ csvDir d)
  | Some filePath =>
      let records := parseCSV d filePath (Some "Page title and screen class") in
      Ok (map toScreenView (filter screenRow records))
  end.

Definition eventRow (record : row) : bool :=
  present (field record "Event name") && present (field record "Event count").

Definition toAnalyticsEvent (record : row) : AnalyticsEvent :=
  {| eventName := orElse (field record "Event name") "";
     eventCount := parseInt (orElse (field record "Event count") "0");
     totalUsers := parseInt (orElse (field record "Total users") "0");
     eventCountPerUser :=
       parseFloat (orElse (field record "Event count per active user") "0");
     totalRevenue := parseFloat (orElse (field record "Total revenue") "0") |}.

Definition loadEventsData (d : Disk) : result (list AnalyticsEvent) :=
  match orPath (findCSVFile d "Events_Event_name1.csv")
               (findCSVFile d "Events_Event_name.csv") with
  | None => Throw ("File not found: Events_Event_name*.csv in " ++ csvDir d)
  | Some filePath =>
      let records := parseCSV d filePath (Some "Event name") in
      Ok (map toAnalyticsEvent (filter eventRow records))
  end.

End WithParser.

(** ** getFeatureUsageAnalysis *)

Inductive FeatureType : Type := screen | event | menu | action | system.

Record FeatureUsageDetail : Type := {
    featureName : string;
    featureType : FeatureType;
    usageCount : number;
    uniqueUsers : number;
    avgUsagePerUser : number;
    engagementTime : option number;
    relatedScreens : option (list string)
  }.

Definition isFeatureScreen (s : ScreenView) : bool :=
  truthy (screenClass s)
  && negb (String.eqb (screenClass s) "(not set)")
  && negb (String.eqb (screenClass s) "(other)").

(** The entry a screen is seeded with. *)
Definition screenFeature (s : ScreenView) : FeatureUsageDetail :=
  {| featureName := screenClass s;
     featureType := screen;
     usageCount := views s;
     uniqueUsers := activeUsers s;
     avgUsagePerUser := viewsPerActiveUser s;
     engagementTime := Some (avgEngagementTime s);
     relatedScreens := None |}.

(** Process screen-based features. *)
Definition addScreen (featureMap : OMap.omap FeatureUsageDetail) (s : ScreenView)
  : OMap.omap FeatureUsageDetail :=
  if isFeatureScreen s then
    let featureName := screenClass s in
    OMap.set featureName (screenFeature s) featureMap
  else featureMap.

Definition systemNames : list string :=
  ["screen_view"; "user_engagement"; "session_start"; "app_update";
   "os_update"; "first_open"].

(** Categorize feature type. *)
Definition featureTypeOf (featureName : string) : FeatureType :=
  if startsWith featureName "menu_" then menu
  else if includes featureName "login" || includes featureName "logout"
          || includes featureName "select_" then action
  else if existsb (String.eqb featureName) systemNames then system
  else event.

(** Merge with existing screen data: the three assignments, in order. *)
Definition mergeEvent (existing : FeatureUsageDetail) (e : AnalyticsEvent)
  : FeatureUsageDetail :=
  let usageCount' := add (usageCount existing) (eventCount e) in
  let uniqueUsers' := max (uniqueUsers existing) (totalUsers e) in
  {| featureName := featureName existing;
     featureType := featureType existing;
     usageCount := usageCount';
     uniqueUsers := uniqueUsers';
     avgUsagePerUser := div usageCount' (or uniqueUsers' one);
     engagementTime := engagementTime existing;
     relatedScreens := relatedScreens existing |}.

(** The entry inserted for an event whose name is new. *)
Definition eventFeature (e : AnalyticsEvent) : FeatureUsageDetail :=
  {| featureName := eventName e;
     featureType := featureTypeOf (eventName e);
     usageCount := eventCount e;
     uniqueUsers := totalUsers e;
     avgUsagePerUser := eventCountPerUser e;
     engagementTime := None;
     relatedScreens := None |}.

(** Process event-based features. *)
Definition addEvent (featureMap : OMap.omap FeatureUsageDetail) (e : AnalyticsEvent)
  : OMap.omap FeatureUsageDetail :=
  let featureName := eventName e in
  match OMap.get featureName featureMap with
  | Some existing => OMap.set featureName (mergeEvent existing e) featureMap
  | None => OMap.set featureName (eventFeature e) featureMap
  end.

(** The screens pushed for one feature name. *)
Definition isRelated (featureName : string) (s : ScreenView) : bool :=
  let screenName := toLowerCase (screenClass s) in
  let featureLower := toLowerCase featureName in
  if includes featureLower "document" && includes screenName "document" then true
  else if includes featureLower "course" && includes screenName "course" then true
  else if includes featureLower "dashboard" && includes screenName "dashboard" then true
  else if includes featureLower "audit" && includes screenName "audit" then true
  else if includes featureLower "communication" && includes screenName "communication"
  then true
  else false.

(** Find related screens for menu/action features. *)
Definition attachRelated (screenViews : list ScreenView)
           (entry : string * FeatureUsageDetail) : string * FeatureUsageDetail :=
  let (featureName', feature) := entry in
  match featureType feature with
  | menu | action =>
      let related := map screenClass (filter (isRelated featureName') screenViews) in
      if 0 <? List.length related then
        (featureName',
         {| featureName := featureName feature;
            featureType := featureType feature;
            usageCount := usageCount feature;
            uniqueUsers := uniqueUsers feature;
            avgUsagePerUser := avgUsagePerUser feature;
            engagementTime := engagementTime feature;
            relatedScreens := Some (dedup related) |})
      else entry
  | _ => entry
  end.

(** The comparator [(a, b) => b.usageCount - a.usageCount] is positive. *)
Definition byUsage (a b : FeatureUsageDetail) : bool :=
  positive (sub (usageCount b) (usageCount a)).

Definition mergedFeatures (events : list AnalyticsEvent) (screenViews : list ScreenView)
  : OMap.omap FeatureUsageDetail :=
  let featureMap := fold_left addScreen screenViews OMap.empty in
  let featureMap := fold_left addEvent events featureMap in
  map (attachRelated screenViews) featureMap.

(** The body of [getFeatureUsageAnalysis] on the loaded data. *)
Definition featureUsage (events : list AnalyticsEvent) (screenViews : list ScreenView)
  : list FeatureUsageDetail :=
  sortBy byUsage (OMap.values (mergedFeatures events screenViews)).

Definition getFeatureUsageAnalysis (parse : string -> option (list row)) (d : Disk)
  : result (list FeatureUsageDetail) :=
  match loadEventsData parse d with
  | Throw msg => Throw msg
  | Ok events =>
      match loadScreenViewsData parse d with
      | Throw msg => Throw msg
      | Ok screenViews => Ok (featureUsage events screenViews)
      end
  end.

End Repository.

(* ================================================================== *)
(** * The service: the summary's top features *)
(* ================================================================== *)

Module Service.

Inductive Category : Type := screen | event | engagement.

Record FeatureUsageStats : Type := {
    featureName : string;
    usageCount : number;
    uniqueUsers : number;
    avgUsagePerUser : number;
    category : Category
  }.

Definition isFeatureScreen (s : ScreenView) : bool :=
  truthy (screenClass s)
  && negb (String.eqb (screenClass s) "(not set)")
  && negb (String.eqb (screenClass s) "(other)").

(** The entry a screen is seeded with. *)
Definition screenFeature (s : ScreenView) : FeatureUsageStats :=
  {| featureName := screenClass s;
     usageCount := views s;
     uniqueUsers := activeUsers s;
     avgUsagePerUser := viewsPerActiveUser s;
     category := screen |}.

(** Add screen-based features. *)
Definition addScreen (features : OMap.omap FeatureUsageStats) (s : ScreenView)
  : OMap.omap FeatureUsageStats :=
  if isFeatureScreen s then
    let featureName := screenClass s in
    OMap.set featureName (screenFeature s) features
  else features.

Definition systemEvents : list string :=
  ["session_start"; "app_update"; "os_update"; "first_open"].

Definition mergeEvent (existing : FeatureUsageStats) (e : AnalyticsEvent)
  : FeatureUsageStats :=
  let usageCount' := add (usageCount existing) (eventCount e) in
  let uniqueUsers' := max (uniqueUsers existing) (totalUsers e) in
  {| featureName := featureName existing;
     usageCount := usageCount';
     uniqueUsers := uniqueUsers';
     avgUsagePerUser := div usageCount' (or uniqueUsers' one);
     category := category existing |}.

(** Determine category. *)
Definition categoryOf (name : string) : Category :=
  if String.eqb name "screen_view" then screen
  else if String.eqb name "user_engagement" then engagement
  else if startsWith name "menu_" then event
  else event.

(** The entry inserted for an event whose name is new. *)
Definition eventFeature (e : AnalyticsEvent) : FeatureUsageStats :=
  {| featureName := eventName e;
     usageCount := eventCount e;
     uniqueUsers := totalUsers e;
     avgUsagePerUser := eventCountPerUser e;
     category := categoryOf (eventName e) |}.

(** Add event-based features. *)
Definition addEvent (features : OMap.omap FeatureUsageStats) (e : AnalyticsEvent)
  : OMap.omap FeatureUsageStats :=
  if negb (existsb (String.eqb (eventName e)) systemEvents) then
    match OMap.get (eventName e) features with
    | Some existing => OMap.set (eventName e) (mergeEvent existing e) features
    | None => OMap.set (eventName e) (eventFeature e) features
    end
  else features.

Definition byUsage (a b : FeatureUsageStats) : bool :=
  positive (sub (usageCount b) (usageCount a)).

Definition mergedFeatures (events : list AnalyticsEvent) (screenViews : list ScreenView)
  : OMap.omap FeatureUsageStats :=
  fold_left addEvent events (fold_left addScreen screenViews OMap.empty).

Definition analyzeFeatureUsage (events : list AnalyticsEvent)
           (screenViews : list ScreenView) : list FeatureUsageStats :=
  firstn 50 (sortBy byUsage (OMap.values (mergedFeatures events screenViews))).

End Service.

(* ================================================================== *)
(** * Vocabulary of the properties *)
(* ================================================================== *)

(** The test of the locator's scan, and the entries the locator accepts. *)
Definition scanTest (pattern file : string) : bool :=
  startsWith (toLowerCase file) (toLowerCase (replace pattern ".csv" ""))
  && endsWith (toLowerCase file) ".csv".

Definition accepts (pattern file : string) : bool :=
  String.eqb pattern file || scanTest pattern file.

(** The section the parser selects, read off the lines of the file: the
    header is the first line passing the header test, the body runs from the
    line after it to the end of the file or to the first section start. *)
Definition noHeaderLine (sec : option string) (lines : list string) : Prop :=
  forallb (fun l => negb (Repository.isHeaderLine sec l)) lines = true.

Definition sectionOf (sec : option string) (lines : list string)
           (header : string) (body : list string) : Prop :=
  exists before rest,
    lines = before ++ header :: body ++ rest
    /\ noHeaderLine sec before
    /\ Repository.isHeaderLine sec header = true
    /\ forallb (fun l => negb (Repository.isSectionStart l)) body = true
    /\ (rest = [] \/ exists b rest', rest = b :: rest' /\ Repository.isSectionStart b = true).

(** What [parseContent] returns for a header line and its data lines. *)
Definition parsedRows (parse : string -> option (list row))
           (header : string) (dataLines : list string) : list row :=
  match dataLines with
  | [] => []
  | _ :: _ =>
      match parse (join newline (header :: dataLines)) with
      | Some records => records
      | None => Repository.manualParse header dataLines
      end
  end.

(** The coercion in words: a missing or empty raw string gives zero, any
    other raw string is handed to the numeric parser. *)
Definition zeroIfMissing (parser : string -> number) (v : option string) : number :=
  match v with
  | Some s => if isEmpty s then zero else parser s
  | None => zero
  end.

(** The calendar day of the record at position [i] for the range
    [start .. end_]: the [i]-th day while the range lasts, then the start. *)
Definition dayOfRecord (start end_ : Z) (i : nat) : Z :=
  if (Z.of_nat i <? end_ - start + 1)%Z then (start + Z.of_nat i)%Z else start.

(** The entry under an event's name once the detailed aggregator has
    processed the event: merged into the entry found there, or inserted. *)
Definition afterEvent (old : option Repository.FeatureUsageDetail) (e : AnalyticsEvent)
  : Repository.FeatureUsageDetail :=
  match old with
  | Some existing => Repository.mergeEvent existing e
  | None => Repository.eventFeature e
  end.

(** The sentinel names of the export. *)
Definition isSentinel (name : string) : bool :=
  String.eqb name "(not set)" || String.eqb name "(other)".

(** Where the key of an entry can come from: a screen that passes the
    seeding test, or an event. *)
Definition fromScreen (screenViews : list ScreenView) (k : string) : Prop :=
  exists s, In s screenViews /\ Repository.isFeatureScreen s = true /\ screenClass s = k.

Definition fromEvent (events : list AnalyticsEvent) (k : string) : Prop :=
  exists e, In e events /\ eventName e = k.

(** The invariant of the detailed feature map: every entry is filed under
    its own name, which comes from a seeded screen or from an event. *)
Definition detailedInv (events : list AnalyticsEvent) (screenViews : list ScreenView)
           (m : OMap.omap Repository.FeatureUsageDetail) : Prop :=
  forall k f, In (k, f) m ->
              Repository.featureName f = k
              /\ (fromScreen screenViews k \/ fromEvent events k).


(** The test of the summary aggregator on an event name. *)
Definition isSystemEvent (name : string) : bool :=
  existsb (String.eqb name) Service.systemEvents.

(** The invariant of the summary feature map: every entry is filed under its
    own name; it is a screen entry of a seeded screen, or its name is that of
    an event outside the system events. *)
Definition summaryInv (events : list AnalyticsEvent) (screenViews : list ScreenView)
           (m : OMap.omap Service.FeatureUsageStats) : Prop :=
  forall k f, In (k, f) m ->
              Service.featureName f = k
              /\ ((fromScreen screenViews k /\ Service.category f = Service.screen)
                  \/ (fromEvent events k /\ isSystemEvent k = false)).


(* ================================================================== *)
(** * Concrete folders, rows and records *)
(* ================================================================== *)

(** The behaviour of csv-parse on plain comma-separated text (no quote
    character), with the options of the source: the first line gives the
    columns, fields are trimmed, empty lines are skipped, a short row leaves
    its trailing columns unset and the fields beyond the columns are dropped.
    It runs the loaders on concrete files. *)
Definition plainRecord (columns : list string) (line : string) : row :=
  fold_left (fun record '(col, v) => OMap.set col v record)
            (combine columns (map trim (split comma line)))
            OMap.empty.

Definition plainParse (text : string) : option (list row) :=
  match filter (fun l => truthy (trim l)) (split LF text) with
  | [] => Some []
  | header :: rows => Some (map (plainRecord (map trim (split comma header))) rows)
  end.

(** The lines of a file, joined by line feeds. *)
Definition fileOf (lines : list string) : string := join newline lines.

(** A folder that exists and holds the given files. *)
Definition folderOf (dir : string) (files : list (string * string)) : Disk :=
  {| csvDir := dir;
     existsSync := true;
     readdirSync := map fst files;
     readFileSync := fun path =>
       match find (fun f => String.eqb path (pathJoin dir (fst f))) files with
       | Some f => snd f
       | None => EmptyString
       end |}.

(** A file whose section has a header, a comment and a blank line, then the
    next section. *)
Definition headerOnlyFile : string :=
  fileOf ["# Start date: 20240101"; "Nth day,30 days,7 days,1 day";
          "# no data"; "   "; "# Start date: 20240101"; "Other,Table"; "1,2"].

(** An overview export of one day with two data rows. *)
Definition oneDayTwoRows : Disk :=
  folderOf "data"
    [("Firebase_overview.csv",
      fileOf ["# Start date: 20240101"; "# End date: 20240101";
              "Nth day,30 days,7 days,1 day"; "0,10,5,2"; "1,12,6,3"])].

(** The overview export of three days with three data rows. *)
Definition threeDays : Disk :=
  folderOf "data"
    [("Firebase_overview.csv",
      fileOf ["# Start date: 20240101"; "# End date: 20240103";
              "Nth day,30 days,7 days,1 day"; "1,10,5,2"; "2,12,6,3"; "3,15,7,1"])].

(** A screens row and an events row whose count is not a number. *)
Definition badScreenRow : row :=
  [("Page title and screen class", "Home"); ("Views", "n/a")].

Definition badEventRow : row :=
  [("Event name", "purchase"); ("Event count", "abc")].

(** Two events that tie on their count, and a sentinel event. *)
Definition alphaEvent : AnalyticsEvent :=
  {| eventName := "alpha"; eventCount := of_Z 5; totalUsers := of_Z 2;
     eventCountPerUser := Fin (5 # 2); totalRevenue := zero |}.



Definition otherEvent : AnalyticsEvent :=
  {| eventName := "(other)"; eventCount := of_Z 3; totalUsers := of_Z 3;
     eventCountPerUser := of_Z 1; totalRevenue := zero |}.

Definition homeScreen : ScreenView :=
  {| screenClass := "HomeScreen"; views := of_Z 500; activeUsers := of_Z 300;
     viewsPerActiveUser := Fin (167 # 100); avgEngagementTime := Fin (226 # 5);
     sv_eventCount := of_Z 500; keyEvents := zero; sv_totalRevenue := zero |}.

(** An event that carries the name of [homeScreen]. *)
Definition homeEvent : AnalyticsEvent :=
  {| eventName := "HomeScreen"; eventCount := of_Z 40; totalUsers := of_Z 320;
     eventCountPerUser := Fin (1 # 8); totalRevenue := zero |}.


Definition firstOpenEvent : AnalyticsEvent :=
  {| eventName := "first_open"; eventCount := of_Z 9; totalUsers := of_Z 9;
     eventCountPerUser := of_Z 1; totalRevenue := zero |}.

(* ================================================================== *)
(** * The other methods of the repository *)
(* ================================================================== *)

(** [a * b] *)
Definition mul (a b : number) : number :=
  match a, b with
  | NaN, _ | _, NaN => NaN
  | Inf s, Inf t => Inf (xorb s t)
  | Inf s, Fin q => if qzero q then NaN else Inf (xorb s (qneg q))
  | Fin p, Inf t => if qzero p then NaN else Inf (xorb (qneg p) t)
  | Fin p, Fin q => Fin (Qred (Qmult p q))
  end.

(** Sequencing of calls that may throw. *)
Definition bind {A B : Type} (r : result A) (k : A -> result B) : result B :=
  match r with
  | Ok a => k a
  | Throw msg => Throw msg
  end.

Record DateRange : Type := {
  startDate : string;
  endDate : string
}.

Record ScreenBreakdown : Type := {
  sb_screenClass : string;
  sb_views : number;
  sb_activeUsers : number;
  sb_avgEngagementTime : number;
  sb_viewsPerUser : number
}.

Record ScreenViewAnalysis : Type := {
  sva_totalScreenViews : number;
  screenViewBreakdown : list ScreenBreakdown
}.

Record ScreenEngagement : Type := {
  se_screenClass : string;
  engagements : number;
  se_activeUsers : number;
  se_avgEngagementTime : number
}.

Record UserEngagementAnalysis : Type := {
  uea_totalEngagements : number;
  uea_totalUsers : number;
  avgEngagementsPerUser : number;
  uea_engagementByScreen : list ScreenEngagement
}.

Module RepositoryViews.

(** ** getDefaultDateRange *)

(** Default to last 30 days: [today] is the day of [new Date()]. *)
Definition last30Days (today : Z) : DateRange :=
  {| startDate := Calendar.format (today - 30)%Z;
     endDate := Calendar.format today |}.

Definition getDefaultDateRange (today : Z) (d : Disk) : DateRange :=
  match Repository.findCSVFile d "Firebase_overview.csv" with
  | None => last30Days today
  | Some filePath =>
      let content := readFileSync d filePath in
      match Repository.matchDate "Start date: " content,
            Repository.matchDate "End date: " content with
      | Some start, Some end_ =>
          {| startDate := Repository.isoOf start; endDate := Repository.isoOf end_ |}
      | _, _ => last30Days today
      end
  end.

(** ** getScreenViewAnalysis *)

(** [events.find(e => e.eventName === name)] *)
Definition findEvent (name : string) (events : list AnalyticsEvent)
  : option AnalyticsEvent :=
  find (fun e => String.eqb (eventName e) name) events.

(** [event?.f || 0] *)
Definition orZero (f : AnalyticsEvent -> number) (event : option AnalyticsEvent)
  : number :=
  match event with
  | Some e => or (f e) zero
  | None => zero
  end.

(** The filter on the screens, shared by both analyses. *)
Definition isNamedScreen (sv : ScreenView) : bool :=
  truthy (screenClass sv)
  && negb (String.eqb (screenClass sv) "(not set)")
  && negb (String.eqb (screenClass sv) "(other)").

Definition toBreakdown (sv : ScreenView) : ScreenBreakdown :=
  {| sb_screenClass := screenClass sv;
     sb_views := views sv;
     sb_activeUsers := activeUsers sv;
     sb_avgEngagementTime := avgEngagementTime sv;
     sb_viewsPerUser := viewsPerActiveUser sv |}.

(** [(a, b) => b.views - a.views] is positive. *)
Definition byViews (a b : ScreenBreakdown) : bool :=
  positive (sub (sb_views b) (sb_views a)).

(** The body of [getScreenViewAnalysis] on the loaded data. *)
Definition screenViewAnalysis (screenViews : list ScreenView)
           (events : list AnalyticsEvent) : ScreenViewAnalysis :=
  let screenViewEvent := findEvent "screen_view" events in
  let totalScreenViews := orZero eventCount screenViewEvent in
  let screenViewBreakdown :=
    sortBy byViews (map toBreakdown (filter isNamedScreen screenViews)) in
  {| sva_totalScreenViews := totalScreenViews;
     screenViewBreakdown := screenViewBreakdown |}.

Definition getScreenViewAnalysis (parse : string -> option (list row)) (d : Disk)
  : result ScreenViewAnalysis :=
  bind (Repository.loadScreenViewsData parse d) (fun screenViews =>
  bind (Repository.loadEventsData parse d) (fun events =>
  Ok (screenViewAnalysis screenViews events))).

(** ** getUserEngagementAnalysis *)

Definition toEngagement (sv : ScreenView) : ScreenEngagement :=
  {| se_screenClass := screenClass sv;
     engagements := sv_eventCount sv;
     se_activeUsers := activeUsers sv;
     se_avgEngagementTime := avgEngagementTime sv |}.

Definition byEngagements (a b : ScreenEngagement) : bool :=
  positive (sub (engagements b) (engagements a)).

(** The body of [getUserEngagementAnalysis] on the loaded data. *)
Definition userEngagementAnalysis (events : list AnalyticsEvent)
           (screenViews : list ScreenView) : UserEngagementAnalysis :=
  let engagementEvent := findEvent "user_engagement" events in
  let engagementByScreen :=
    sortBy byEngagements
           (filter (fun sb => positive (engagements sb))
                   (map toEngagement (filter isNamedScreen screenViews))) in
  {| uea_totalEngagements := orZero eventCount engagementEvent;
     uea_totalUsers := orZero totalUsers engagementEvent;
     avgEngagementsPerUser := orZero eventCountPerUser engagementEvent;
     uea_engagementByScreen := engagementByScreen |}.

Definition getUserEngagementAnalysis (parse : string -> option (list row)) (d : Disk)
  : result UserEngagementAnalysis :=
  bind (Repository.loadEventsData parse d) (fun events =>
  bind (Repository.loadScreenViewsData parse d) (fun screenViews =>
  Ok (userEngagementAnalysis events screenViews))).

End RepositoryViews.

(* ================================================================== *)
(** * The other methods of the service *)
(* ================================================================== *)

Record EngagementAnalysis : Type := {
  ea_totalEngagements : number;
  ea_avgEngagementTime : number;
  ea_topScreens : list ScreenView;
  ea_engagementByScreen : OMap.omap number
}.

Record DashboardSummary : Type := {
  totalActiveUsers : number;
  totalScreenViews : number;
  totalEvents : number;
  topFeatures : list Service.FeatureUsageStats;
  topScreens : list ScreenView;
  topEvents : list AnalyticsEvent;
  engagementAnalysis : EngagementAnalysis;
  dailyData : list DailyActiveUsers;
  dateRange : DateRange;
  ds_screenViewAnalysis : ScreenViewAnalysis;
  ds_userEngagementAnalysis : UserEngagementAnalysis;
  featureUsageDetails : list Repository.FeatureUsageDetail
}.

Record ServiceScreenAnalysis : Type := {
  ssa_topScreens : list ScreenView;
  screensByEngagement : list ScreenView;
  screensByUsers : list ScreenView
}.

Record EventAnalysis : Type := {
  customEvents : list AnalyticsEvent;
  ea_systemEvents : list AnalyticsEvent;
  eventsByUsers : list AnalyticsEvent
}.

Module ServiceViews.

(** The comparator [(a, b) => f b - f a] is positive: descending by [f]. *)
Definition descending {A : Type} (f : A -> number) (a b : A) : bool :=
  positive (sub (f b) (f a)).

(** [l.reduce((sum, x) => sum + f x, 0)] *)
Definition sumOf {A : Type} (f : A -> number) (l : list A) : number :=
  fold_left (fun sum x => add sum (f x)) l zero.

(** ** analyzeEngagement *)

Definition analyzeEngagement (screenViews : list ScreenView)
           (events : list AnalyticsEvent) : EngagementAnalysis :=
  let totalEngagements := sumOf sv_eventCount screenViews in
  let totalEngagementTime :=
    sumOf (fun sv => mul (avgEngagementTime sv) (activeUsers sv)) screenViews in
  let totalUsers := sumOf activeUsers screenViews in
  let avgEngagementTime' :=
    if positive totalUsers then div totalEngagementTime totalUsers else zero in
  let topScreens :=
    firstn 10 (sortBy (descending avgEngagementTime) screenViews) in
  let engagementByScreen :=
    fold_left (fun m sv => OMap.set (screenClass sv) (avgEngagementTime sv) m)
              screenViews OMap.empty in
  {| ea_totalEngagements := totalEngagements;
     ea_avgEngagementTime := avgEngagementTime';
     ea_topScreens := topScreens;
     ea_engagementByScreen := engagementByScreen |}.

(** ** getDashboardSummary *)

Definition getDashboardSummary (parse : string -> option (list row)) (today : Z)
           (d : Disk) : result DashboardSummary :=
  bind (Repository.loadOverviewData parse d) (fun overview =>
  bind (Repository.loadEventsData parse d) (fun events =>
  bind (Repository.loadScreenViewsData parse d) (fun screenViews =>
  let dateRange := RepositoryViews.getDefaultDateRange today d in
  let screenViewEvent := RepositoryViews.findEvent "screen_view" events in
  let totalActiveUsers := RepositoryViews.orZero totalUsers screenViewEvent in
  let totalScreenViews := sumOf views screenViews in
  let totalEvents := sumOf eventCount events in
  let topFeatures := Service.analyzeFeatureUsage events screenViews in
  let topScreens := firstn 20 (sortBy (descending views) screenViews) in
  let topEvents := sortBy (descending eventCount) events in
  let engagementAnalysis := analyzeEngagement screenViews events in
  bind (RepositoryViews.getScreenViewAnalysis parse d) (fun screenViewAnalysis =>
  bind (RepositoryViews.getUserEngagementAnalysis parse d) (fun userEngagementAnalysis =>
  bind (Repository.getFeatureUsageAnalysis parse d) (fun featureUsageDetails =>
  Ok {| totalActiveUsers := totalActiveUsers;
        totalScreenViews := totalScreenViews;
        totalEvents := totalEvents;
        topFeatures := topFeatures;
        topScreens := topScreens;
        topEvents := topEvents;
        engagementAnalysis := engagementAnalysis;
        dailyData := overview;
        dateRange := dateRange;
        ds_screenViewAnalysis := screenViewAnalysis;
        ds_userEngagementAnalysis := userEngagementAnalysis;
        featureUsageDetails := featureUsageDetails |})))))).

(** ** getScreenViewAnalysis (service) *)

Definition screenAnalysis (screenViews : list ScreenView) : ServiceScreenAnalysis :=
  {| ssa_topScreens := firstn 20 (sortBy (descending views) screenViews);
     screensByEngagement :=
       firstn 20 (sortBy (descending avgEngagementTime) screenViews);
     screensByUsers := firstn 20 (sortBy (descending activeUsers) screenViews) |}.

Definition getScreenViewAnalysis (parse : string -> option (list row)) (d : Disk)
  : result ServiceScreenAnalysis :=
  bind (Repository.loadScreenViewsData parse d) (fun screenViews =>
  Ok (screenAnalysis screenViews)).

(** ** getEventAnalysis *)

Definition systemEvents : list string :=
  ["screen_view"; "user_engagement"; "session_start"; "app_update";
   "os_update"; "first_open"].

Definition eventAnalysis (events : list AnalyticsEvent) : EventAnalysis :=
  {| customEvents :=
       filter (fun e => negb (existsb (String.eqb (eventName e)) systemEvents)) events;
     ea_systemEvents :=
       filter (fun e => existsb (String.eqb (eventName e)) systemEvents) events;
     eventsByUsers := sortBy (descending totalUsers) events |}.

Definition getEventAnalysis (parse : string -> option (list row)) (d : Disk)
  : result EventAnalysis :=
  bind (Repository.loadEventsData parse d) (fun events =>
  Ok (eventAnalysis events)).

End ServiceViews.

(* ================================================================== *)
(** * The folder list of the API (app/api/analytics/folders/route.ts) *)
(* ================================================================== *)

(** The data directory as the route sees it through [fs]: whether it
    exists, its entries with [entry.isDirectory()], and the listing of each
    sub-folder by name. *)
Record DataDir : Type := {
  dataDirExists : bool;
  dataDirEntries : list (string * bool);
  folderFiles : string -> list string
}.

Module Folders.

(** [files.some(file => file.toLowerCase().startsWith(prefix)
                        && file.toLowerCase().endsWith('.csv'))] *)
Definition hasCsv (prefix : string) (files : list string) : bool :=
  existsb (fun file => startsWith (toLowerCase file) prefix
                       && endsWith (toLowerCase file) ".csv")
          files.

(** The filter on the folder names: all three kinds of file are there. *)
Definition isDataset (files : list string) : bool :=
  let hasOverview := hasCsv "firebase_overview" files in
  let hasEvents := hasCsv "events_event_name" files in
  let hasPages := hasCsv "pages_and_screens_page_title_and_screen_class" files in
  hasOverview && hasEvents && hasPages.

(** [a.sort()] on strings: ascending by code units. *)
Definition sortNames (names : list string) : list string :=
  sortBy (fun a b => String.ltb b a) names.

(** The folders of the response. *)
Definition listFolders (dataDir : DataDir) : list string :=
  if negb (dataDirExists dataDir) then []
  else
    let entries := dataDirEntries dataDir in
    sortNames
      (filter (fun name => isDataset (folderFiles dataDir name))
              (map fst (filter snd entries))).

(** The folder [name] of the data directory as a repository reads it. *)
Definition diskOf (dataDir : DataDir) (name : string)
           (readFile : string -> string) : Disk :=
  {| csvDir := pathJoin "data" name;
     existsSync := true;
     readdirSync := folderFiles dataDir name;
     readFileSync := readFile |}.

End Folders.

(* ================================================================== *)
(** * More concrete files *)
(* ================================================================== *)

(** A file with one section, the start of the next one, and a tail. *)
Definition sectionThenMore (tail : list string) : string :=
  fileOf (["# Start date: 20240101"; "Nth day,30 days"; "0,10";
           "# Start date: 20240101"] ++ tail).

(** A folder with the three exports. *)
Definition smallDataset : Disk :=
  folderOf "data"
    [("Firebase_overview.csv",
      fileOf ["# Start date: 20240101"; "# End date: 20240102";
              "Nth day,30 days,7 days,1 day"; "0,10,5,2"; "1,12,6,3"]);
     ("Events_Event_name.csv",
      fileOf ["# Events"; "Event name,Event count,Total users,Event count per active user,Total revenue";
              "screen_view,500,300,1.67,0"; "menu_document,20,15,1.33,0";
              ",7,7,1,0"; "first_open,9,9,1,0"]);
     ("Pages_and_screens_Page_title_and_screen_class.csv",
      fileOf ["Page title and screen class,Views,Active users,Views per active user,Average engagement time per active user,Event count,Key events,Total revenue";
              "HomeScreen,500,300,1.67,45.2,500,0,0";
              "DocumentViewController,40,10,4,12.5,60,0,0";
              "(not set),3,3,1,0,3,0,0"])].

(* ================================================================== *)
(** * The feature maps, key by key *)
(* ================================================================== *)

(** The screen that seeds the entry of name [k]: the last screen of that
    class that passes the seeding test. *)
Definition seedOf (screenViews : list ScreenView) (k : string) : option ScreenView :=
  find (fun s => Repository.isFeatureScreen s && String.eqb (screenClass s) k)
       (rev screenViews).

(** The events of name [k], in the order of the list. *)
Definition eventsNamed (k : string) (events : list AnalyticsEvent)
  : list AnalyticsEvent :=
  filter (fun e => String.eqb (eventName e) k) events.

(** The totals an entry holds after the events [es] have been merged into
    an entry that started with [usage] and [users]. *)
Definition usageAfter (usage : number) (es : list AnalyticsEvent) : number :=
  fold_left add (map eventCount es) usage.

Definition usersAfter (users : number) (es : list AnalyticsEvent) : number :=
  fold_left max (map totalUsers es) users.

(** The average an entry holds: the one it started with while nothing was
    merged, the recomputed one afterwards. *)
Definition averageAfter (average usage users : number) (es : list AnalyticsEvent)
  : number :=
  match es with
  | [] => average
  | _ :: _ => div (usageAfter usage es) (or (usersAfter users es) one)
  end.

(** The screens pushed for a feature name, before duplicates are dropped. *)
Definition relatedTo (screenViews : list ScreenView) (featureName : string)
  : list string :=
  map screenClass (filter (Repository.isRelated featureName) screenViews).

Definition isMenuOrAction (t : Repository.FeatureType) : bool :=
  match t with
  | Repository.menu | Repository.action => true
  | _ => false
  end.

(** The entry of the summary map under an event's name once the event is
    processed. *)
Definition afterEventStats (old : option Service.FeatureUsageStats) (e : AnalyticsEvent)
  : Service.FeatureUsageStats :=
  match old with
  | Some existing => Service.mergeEvent existing e
  | None => Service.eventFeature e
  end.

(** A summary entry and a detailed entry that carry the same figures. *)
Definition sameFigures (f : Service.FeatureUsageStats)
           (g : Repository.FeatureUsageDetail) : Prop :=
  Service.featureName f = Repository.featureName g
  /\ Service.usageCount f = Repository.usageCount g
  /\ Service.uniqueUsers f = Repository.uniqueUsers g
  /\ Service.avgUsagePerUser f = Repository.avgUsagePerUser g.

Definition sameEntry (f : option Service.FeatureUsageStats)
           (g : option Repository.FeatureUsageDetail) : Prop :=
  match f, g with
  | Some f', Some g' => sameFigures f' g'
  | None, None => True
  | _, _ => False
  end.

(** The detailed map after both loops, before the related screens are
    attached. *)
Definition foldedFeatures (events : list AnalyticsEvent)
           (screenViews : list ScreenView)
  : OMap.omap Repository.FeatureUsageDetail :=
  fold_left Repository.addEvent events
            (fold_left Repository.addScreen screenViews OMap.empty).

(** A menu event and a screen that share the keyword [document]. *)
Definition menuDocumentEvent : AnalyticsEvent :=
  {| eventName := "menu_document"; eventCount := of_Z 20; totalUsers := of_Z 15;
     eventCountPerUser := Fin (4 # 3); totalRevenue := zero |}.

Definition documentScreen : ScreenView :=
  {| screenClass := "DocumentViewController"; views := of_Z 40;
     activeUsers := of_Z 10; viewsPerActiveUser := of_Z 4;
     avgEngagementTime := Fin (25 # 2); sv_eventCount := of_Z 60;
     keyEvents := zero; sv_totalRevenue := zero |}.

(** The entry of [menuDocumentEvent] once the related screens of
    [homeScreen; documentScreen] are attached. *)
Definition menuDocumentFeature : Repository.FeatureUsageDetail :=
  snd (Repository.attachRelated [homeScreen; documentScreen]
         ("menu_document", Repository.eventFeature menuDocumentEvent)).


(** The last screen of class [k], sentinels included. *)
Definition lastOfClass (screenViews : list ScreenView) (k : string)
  : option ScreenView :=
  find (fun s => String.eqb (screenClass s) k) (rev screenViews).

(* ================================================================== *)
(** * Checks by enumeration for the calendar *)
(* ================================================================== *)








(* ================================================================== *)
(** * Checks of the string, number and calendar models *)
(* ================================================================== *)

Example trim_ex : trim "  # Start date: 20240101 " = "# Start date: 20240101".
Proof. reflexivity. Qed.

Example split_ex : split LF (String "a" (String LF (String "b" (String LF EmptyString))))
                   = ["a"; "b"; ""].
Proof. reflexivity. Qed.

Example replace_ex : replace "Events_Event_name.csv" ".csv" "" = "Events_Event_name".
Proof. reflexivity. Qed.

Example padded_ex : padded 2 7 = "07" /\ padded 4 2024 = "2024" /\ padded 2 0 = "00".
Proof. repeat split; reflexivity. Qed.

Example parseInt_ex :
  parseInt "42" = of_Z 42 /\ parseInt " -7x" = of_Z (-7) /\ parseInt "abc" = NaN
  /\ parseInt "" = NaN /\ parseInt "12.9" = of_Z 12.
Proof. repeat split; reflexivity. Qed.

Example parseFloat_ex :
  parseFloat "1.67" = Fin (167 # 100) /\ parseFloat "0" = zero
  /\ parseFloat ".5e1" = of_Z 5 /\ parseFloat "x1" = NaN
  /\ parseFloat "-Infinity" = Inf true /\ parseFloat "45.2s" = Fin (226 # 5)
  /\ parseFloat "1e-2" = Fin (1 # 100) /\ parseFloat "." = NaN.
Proof. repeat split; reflexivity. Qed.

Example calendar_ex :
  Calendar.parseISO "2024-01-01" = Some 19723%Z
  /\ Calendar.format 19723 = "2024-01-01"
  /\ Calendar.parseISO "2024-02-30" = None
  /\ Calendar.format 0 = "1970-01-01"
  /\ option_map (map Calendar.format)
       (Calendar.eachDayOfInterval 19781%Z 19783%Z)
     = Some ["2024-02-28"; "2024-02-29"; "2024-03-01"].
Proof. repeat split; reflexivity. Qed.

(* ================================================================== *)
(** * Laws of the arithmetic *)
(* ================================================================== *)

Section NumberLaws.






End NumberLaws.

(* ================================================================== *)
(** * Strings *)
(* ================================================================== *)

Lemma toLowerCase_eqb (s p : string) :
  String.eqb s p = true -> String.eqb (toLowerCase s) (toLowerCase p) = true.
Proof.
  intros H. apply String.eqb_eq in H. subst p. apply String.eqb_refl.
Qed.

Lemma endsWith_lower (s p : string) :
  endsWith s p = true -> endsWith (toLowerCase s) (toLowerCase p) = true.
Proof.
  induction s as [|c s IH]; simpl; intros H.
  - destruct p; [reflexivity|discriminate].
  - apply orb_true_iff in H. apply orb_true_iff. destruct H as [H|H].
    + left. apply (toLowerCase_eqb (String c s) p H).
    + right. auto.
Qed.

Lemma find_first {A : Type} (f : A -> bool) (l : list A) (x : A) :
  find f l = Some x ->
  f x = true /\
  exists before after, l = before ++ x :: after /\ forallb (fun y => negb (f y)) before = true.
Proof.
  induction l as [|y l IH]; simpl; [discriminate|].
  destruct (f y) eqn:Hy; intros H.
  - injection H as <-. split; [assumption|]. exists [], l. split; reflexivity.
  - destruct (IH H) as (Hx & b & a & -> & Hb). split; [assumption|].
    exists (y :: b), a. split; [reflexivity|]. simpl. rewrite Hy, Hb. reflexivity.
Qed.

Lemma find_none_iff {A : Type} (f : A -> bool) (l : list A) (x : A) :
  find f l = None -> In x l -> f x = false.
Proof. intros H Hin. exact (find_none f l H x Hin). Qed.

(* ================================================================== *)
(** * The file locator *)
(* ================================================================== *)

(** C9.  In a folder that exists, if some entry [f] starts with the base
    pattern case-insensitively and ends with [.csv], the locator does not
    return not-found: it resolves to an entry [g] of the folder, which is the
    exact pattern or else the first entry passing the scan test; and it is
    [f] itself when [f] is the only entry the locator accepts. *)
Theorem findCSVFile_resolves (d : Disk) (pattern f : string) :
  existsSync d = true ->
  In f (readdirSync d) ->
  startsWith (toLowerCase f) (toLowerCase (replace pattern ".csv" "")) = true ->
  endsWith f ".csv" = true ->
  exists g,
    Repository.findCSVFile d pattern = Some (pathJoin (csvDir d) g)
    /\ In g (readdirSync d)
    /\ (g = pattern
        \/ (scanTest pattern g = true
            /\ exists before after,
                 readdirSync d = before ++ g :: after
                 /\ forallb (fun y => negb (scanTest pattern y)) before = true))
    /\ ((forall h, In h (readdirSync d) -> accepts pattern h = true -> h = f) -> g = f).
Proof.
  intros Hex Hin Hpre Hsuf.
  assert (Hf : scanTest pattern f = true).
  { unfold scanTest. rewrite Hpre. simpl.
    exact (endsWith_lower f ".csv" Hsuf). }
  unfold Repository.findCSVFile. rewrite Hex. simpl.
  destruct (existsb (String.eqb pattern) (readdirSync d)) eqn:Hexact.
  - apply existsb_exists in Hexact. destruct Hexact as (g & Hg & Heq).
    apply String.eqb_eq in Heq. subst g.
    exists pattern. repeat split; auto.
    intros Huniq. apply Huniq; [assumption|].
    unfold accepts. rewrite String.eqb_refl. reflexivity.
  - fold (scanTest pattern).
    change (fun file : string =>
              startsWith (toLowerCase file) (toLowerCase (replace pattern ".csv" ""))
              && endsWith (toLowerCase file) ".csv") with (scanTest pattern).
    destruct (find (scanTest pattern) (readdirSync d)) as [g|] eqn:Hfind.
    + destruct (find_first _ _ _ Hfind) as (Hg & b & a & Hsplit & Hb).
      assert (Hne : truthy g = true).
      { unfold scanTest in Hg. apply andb_true_iff in Hg. destruct Hg as [_ Hg].
        destruct g; [discriminate|reflexivity]. }
      rewrite Hne. exists g.
      assert (Hing : In g (readdirSync d)).
      { rewrite Hsplit. apply in_or_app. right. left. reflexivity. }
      repeat split; auto.
      * right. split; [assumption|]. exists b, a. split; assumption.
      * intros Huniq. apply Huniq; [assumption|].
        unfold accepts. rewrite Hg. apply orb_true_r.
    + rewrite (find_none_iff _ _ f Hfind Hin) in Hf. discriminate.
Qed.

(** The scenario of C9: the pattern [Events_Event_name] in a folder whose
    only entry is [events_event_name2.csv]. *)
Lemma findCSVFile_resolves_scenario :
  exists g,
    Repository.findCSVFile (folderOf "data" [("events_event_name2.csv", "")])
                           "Events_Event_name.csv"
    = Some (pathJoin "data" g)
    /\ g = "events_event_name2.csv".
Proof.
  destruct (findCSVFile_resolves
              (folderOf "data" [("events_event_name2.csv", "")])
              "Events_Event_name.csv" "events_event_name2.csv"
              eq_refl (or_introl eq_refl) eq_refl eq_refl)
    as (g & Hfind & _ & _ & Huniq).
  exists g. split; [exact Hfind|].
  apply Huniq. intros h [<-|[]] _. reflexivity.
Defined.

(** The events loader reaches the same entry through its two attempts. *)
Example events_locator_scenario :
  let d := folderOf "data" [("events_event_name2.csv", "")] in
  Repository.findCSVFile d "Events_Event_name1.csv" = None
  /\ Repository.orPath (Repository.findCSVFile d "Events_Event_name1.csv")
                       (Repository.findCSVFile d "Events_Event_name.csv")
     = Some "data/events_event_name2.csv".
Proof. split; reflexivity. Qed.

(* ================================================================== *)
(** * The sectioned parser *)
(* ================================================================== *)

Section ParserFacts.
Import Repository.
Variable parse : string -> option (list row).



Lemma findHeader_none (sec : option string) (rest : list string) (i : nat) :
  findHeader sec i rest = None <->
  forallb (fun l => negb (isHeaderLine sec l)) rest = true.
Proof.
  revert i. induction rest as [|l rest IH]; intros i; simpl; [tauto|].
  destruct (isHeaderLine sec l); simpl; [split; discriminate|apply IH].
Qed.

Lemma slice_middle {A : Type} (before body rest : list A) (x : A) :
  slice (S (List.length before)) (S (List.length before) + List.length body)
        (before ++ x :: body ++ rest) = body.
Proof.
  unfold slice.
  replace (S (List.length before) + List.length body - S (List.length before))
    with (List.length body) by lia.
  replace (before ++ x :: body ++ rest) with ((before ++ [x]) ++ body ++ rest)
    by (rewrite <- app_assoc; reflexivity).
  rewrite skipn_app.
  replace (S (List.length before)) with (List.length (before ++ [x]))
    by (rewrite length_app; simpl; lia).
  rewrite skipn_all, Nat.sub_diag. simpl.
  rewrite firstn_app, firstn_all, Nat.sub_diag. simpl. apply app_nil_r.
Qed.


Lemma sectionLines_none (lines : list string) (sec : option string) :
  sectionLines lines sec = None <->
  forallb (fun l => negb (isHeaderLine sec l)) lines = true.
Proof.
  unfold sectionLines. rewrite <- (findHeader_none sec lines 0).
  destruct (findHeader sec 0 lines) as [[[h s] e]|]; split; congruence.
Qed.

Lemma parseContent_rows (content : string) (sec : option string) :
  parseContent parse content sec =
  match sectionLines (split LF content) sec with
  | None => []
  | Some (header, dataLines) => parsedRows parse header dataLines
  end.
Proof.
  unfold parseContent.
  destruct (sectionLines (split LF content) sec) as [[header dataLines]|];
    [|reflexivity].
  destruct dataLines; reflexivity.
Qed.

End ParserFacts.

Section ParserTheorems.
Import Repository.
Variable parse : string -> option (list row).

Lemma findDataEnd_app (body rest : list string) (j : nat) :
  forallb (fun l => negb (isSectionStart l)) body = true ->
  (rest = [] \/ exists b rest', rest = b :: rest' /\ isSectionStart b = true) ->
  findDataEnd j (body ++ rest) = j + List.length body.
Proof.
  revert j. induction body as [|l body IH]; intros j Hb Hr; simpl.
  - destruct Hr as [->|(b & r & -> & Hs)]; simpl; [lia|]. rewrite Hs. lia.
  - simpl in Hb. apply andb_true_iff in Hb. destruct Hb as [Hl Hb].
    apply negb_true_iff in Hl. rewrite Hl, (IH (S j) Hb Hr). lia.
Qed.

Lemma findHeader_app (sec : option string) (before tail : list string)
      (header : string) (i : nat) :
  noHeaderLine sec before ->
  isHeaderLine sec header = true ->
  findHeader sec i (before ++ header :: tail)
  = Some (i + List.length before, S (i + List.length before),
          findDataEnd (S (i + List.length before)) tail).
Proof.
  unfold noHeaderLine.
  revert i. induction before as [|l before IH]; intros i Hb Hh; simpl.
  - rewrite Hh, Nat.add_0_r. reflexivity.
  - simpl in Hb. apply andb_true_iff in Hb. destruct Hb as [Hl Hb].
    apply negb_true_iff in Hl. rewrite Hl, (IH (S i) Hb Hh).
    replace (S i + List.length before) with (i + S (List.length before)) by lia.
    reflexivity.
Qed.

(** The decomposition determines what the parser selects. *)
Lemma sectionLines_of_section (lines : list string) (sec : option string)
      (header : string) (body : list string) :
  sectionOf sec lines header body ->
  sectionLines lines sec = Some (header, filter isDataLine body).
Proof.
  intros (before & rest & -> & Hb & Hh & Hbody & Hrest).
  unfold sectionLines.
  rewrite (findHeader_app sec before (body ++ rest) header 0 Hb Hh).
  rewrite (findDataEnd_app body rest _ Hbody Hrest).
  change (0 + List.length before) with (List.length before).
  rewrite nth_middle, slice_middle. reflexivity.
Qed.


(** C7.  The parser returns the empty sequence when no line passes the header
    test, and when the body of the selected section holds only blank lines
    and comments. *)
Theorem parseContent_empty (content : string) (sec : option string) :
  noHeaderLine sec (split LF content)
  \/ (exists header body,
        sectionOf sec (split LF content) header body
        /\ forallb (fun l => negb (isDataLine l)) body = true) ->
  parseContent parse content sec = [].
Proof.
  rewrite parseContent_rows.
  intros [Hnone|(header & body & Hsec & Hblank)].
  - apply sectionLines_none in Hnone. rewrite Hnone. reflexivity.
  - rewrite (sectionLines_of_section _ _ _ _ Hsec).
    replace (filter isDataLine body) with (@nil string); [reflexivity|].
    symmetry. clear Hsec. induction body as [|l body IH]; [reflexivity|].
    simpl in *. apply andb_true_iff in Hblank. destruct Hblank as [Hl Hb].
    apply negb_true_iff in Hl. rewrite Hl. auto.
Qed.

End ParserTheorems.

Lemma parseContent_empty_witness :
  Repository.parseContent plainParse headerOnlyFile (Some "30 days") = []
  /\ Repository.parseContent plainParse (fileOf ["# only"; ""; "no marker here"])
                             (Some "30 days") = [].
Proof.
  split.
  - apply parseContent_empty. right.
    exists "Nth day,30 days,7 days,1 day", ["# no data"; "   "].
    split; [|reflexivity].
    exists ["# Start date: 20240101"], ["# Start date: 20240101"; "Other,Table"; "1,2"].
    repeat split.
    right. eexists _, _. split; reflexivity.
  - apply parseContent_empty. left. reflexivity.
Defined.

(* ================================================================== *)
(** * The loaders *)
(* ================================================================== *)

Section LoaderFacts.
Import Repository.

Lemma coerce_int (v : option string) :
  parseInt (orElse v "0") = zeroIfMissing parseInt v.
Proof. destruct v as [[|c s]|]; reflexivity. Qed.

Lemma coerce_float (v : option string) :
  parseFloat (orElse v "0") = zeroIfMissing parseFloat v.
Proof. destruct v as [[|c s]|]; reflexivity. Qed.

(** A raw string that starts with a letter or a punctuation mark has no
    numeric prefix. *)
Lemma parseInt_not_numeric (c : ascii) (s : string) :
  isSpace c = false -> isDigit c = false -> c <> "+"%char -> c <> "-"%char ->
  parseInt (String c s) = NaN.
Proof.
  intros Hs Hd Hp Hm. unfold parseInt. simpl. rewrite Hs.
  assert (Ht : takeSign (String c s) = (false, String c s)).
  { unfold takeSign. clear Hs Hd.
    destruct c as [[] [] [] [] [] [] [] []]; try reflexivity; congruence. }
  rewrite Ht. simpl. rewrite Hd. reflexivity.
Qed.

Lemma mapiFrom_length {A B : Type} (f : A -> nat -> B) (l : list A) (k : nat) :
  List.length (mapiFrom k f l) = List.length l.
Proof. revert k. induction l; intros k; simpl; auto. Qed.

Lemma mapiFrom_nth_error {A B : Type} (f : A -> nat -> B) (l : list A) (k i : nat) :
  nth_error (mapiFrom k f l) i = option_map (fun x => f x (k + i)) (nth_error l i).
Proof.
  revert k i. induction l as [|x l IH]; intros k [|i]; simpl; try reflexivity.
  - rewrite Nat.add_0_r. reflexivity.
  - rewrite IH. replace (S k + i) with (k + S i) by lia. reflexivity.
Qed.

Lemma eachDay_nth (start end_ : Z) (allDates : list Z) (i : nat) :
  Calendar.eachDayOfInterval start end_ = Some allDates ->
  nth i allDates start = dayOfRecord start end_ i.
Proof.
  unfold Calendar.eachDayOfInterval, dayOfRecord.
  destruct (Z.leb_spec start end_) as [Hle|]; [|discriminate].
  intros H. injection H as <-.
  set (n := Z.to_nat (end_ - start + 1)).
  destruct (Z.ltb_spec (Z.of_nat i) (end_ - start + 1)) as [Hi|Hi].
  - assert (Hlt : i < n) by (unfold n; lia).
    rewrite (nth_indep _ start (start + Z.of_nat 0)%Z)
      by (rewrite length_map, length_seq; exact Hlt).
    rewrite (map_nth (fun j => (start + Z.of_nat j)%Z)), seq_nth by exact Hlt.
    reflexivity.
  - apply nth_overflow. rewrite length_map, length_seq. unfold n. lia.
Qed.

Lemma dayOfRecord_range (start end_ : Z) (i : nat) :
  (start <= end_)%Z ->
  (start <= dayOfRecord start end_ i <= end_)%Z.
Proof.
  intros H. unfold dayOfRecord.
  destruct (Z.ltb_spec (Z.of_nat i) (end_ - start + 1)); lia.
Qed.

End LoaderFacts.

Section LoaderTheorems.
Import Repository.
Variable parse : string -> option (list row).

(** C1, as the code has it.  When the overview file is found and its comments
    give a valid range [startDate .. endDate], the loader returns one record
    per surviving row (a row with a non-empty [Nth day] and [30 days]); the
    record at position [i] carries the [i]-th calendar day of the range while
    [i] is below the number of days, and the start date from there on; so
    every date lies in the range. *)
Theorem loadOverviewData_days (d : Disk)
        (filePath startDateStr endDateStr : string) (startDate endDate : Z) :
  findCSVFile d "Firebase_overview.csv" = Some filePath ->
  matchDate "Start date: " (readFileSync d filePath) = Some startDateStr ->
  matchDate "End date: " (readFileSync d filePath) = Some endDateStr ->
  Calendar.parseISO (isoOf startDateStr) = Some startDate ->
  Calendar.parseISO (isoOf endDateStr) = Some endDate ->
  (startDate <= endDate)%Z ->
  exists days,
    loadOverviewData parse d = Ok days
    /\ List.length days
       = List.length (filter overviewRow (parseCSV parse d filePath (Some "30 days")))
    /\ forall i r,
         nth_error days i = Some r ->
         date r = Calendar.format (dayOfRecord startDate endDate i)
         /\ (startDate <= dayOfRecord startDate endDate i <= endDate)%Z.
Proof.
  intros Hfile Hs He Hps Hpe Hle.
  unfold loadOverviewData. rewrite Hfile, Hs, He, Hps, Hpe.
  destruct (Calendar.eachDayOfInterval startDate endDate) as [allDates|] eqn:Hdays.
  - eexists. split; [reflexivity|]. split.
    + apply mapiFrom_length.
    + intros i r Hr. unfold mapi in Hr. rewrite mapiFrom_nth_error in Hr.
      destruct (nth_error _ i) as [record|]; [|discriminate].
      injection Hr as <-. simpl.
      rewrite (eachDay_nth _ _ _ i Hdays).
      split; [reflexivity|]. apply dayOfRecord_range. exact Hle.
  - unfold Calendar.eachDayOfInterval in Hdays.
    destruct (Z.leb_spec startDate endDate); [discriminate|lia].
Qed.

(** C2, as the code has it.  The coercion of the screens and events loaders
    is a total function of the row; a numeric field whose raw string is
    missing or empty is zero; any other raw string goes through [parseInt] or
    [parseFloat], and an integer field whose raw string starts with a
    character that is neither white space, a sign nor a digit is NaN. *)
Theorem loaders_coercion (record : row) :
  toScreenView record
  = {| screenClass := orElse (field record "Page title and screen class") "";
       views := zeroIfMissing parseInt (field record "Views");
       activeUsers := zeroIfMissing parseInt (field record "Active users");
       viewsPerActiveUser :=
         zeroIfMissing parseFloat (field record "Views per active user");
       avgEngagementTime :=
         zeroIfMissing parseFloat
                       (field record "Average engagement time per active user");
       sv_eventCount := zeroIfMissing parseInt (field record "Event count");
       keyEvents := zeroIfMissing parseInt (field record "Key events");
       sv_totalRevenue := zeroIfMissing parseFloat (field record "Total revenue") |}
  /\ toAnalyticsEvent record
     = {| eventName := orElse (field record "Event name") "";
          eventCount := zeroIfMissing parseInt (field record "Event count");
          totalUsers := zeroIfMissing parseInt (field record "Total users");
          eventCountPerUser :=
            zeroIfMissing parseFloat (field record "Event count per active user");
          totalRevenue := zeroIfMissing parseFloat (field record "Total revenue") |}
  /\ forall c s,
       isSpace c || isDigit c || Ascii.eqb c "+" || Ascii.eqb c "-" = false ->
       zeroIfMissing parseInt (Some (String c s)) = NaN.
Proof.
  unfold toScreenView, toAnalyticsEvent.
  rewrite !coerce_int, !coerce_float. repeat split.
  intros c s H. simpl.
  apply orb_false_iff in H. destruct H as [H Hm].
  apply orb_false_iff in H. destruct H as [H Hp].
  apply orb_false_iff in H. destruct H as [Hs Hd].
  apply parseInt_not_numeric; auto.
  - intros ->. discriminate.
  - intros ->. discriminate.
Qed.

End LoaderTheorems.

(** The scenario of the spec: three days, three rows. *)
Lemma loadOverviewData_days_scenario :
  exists days,
    Repository.loadOverviewData plainParse threeDays = Ok days
    /\ map date days = ["2024-01-01"; "2024-01-02"; "2024-01-03"]
    /\ map activeUsers30Days days = [of_Z 10; of_Z 12; of_Z 15].
Proof.
  destruct (loadOverviewData_days plainParse threeDays
              "data/Firebase_overview.csv" "20240101" "20240103" 19723 19725
              eq_refl eq_refl eq_refl eq_refl eq_refl)
    as (days & Hload & _ & _).
  - discriminate.
  - exists days. split; [exact Hload|].
    vm_compute in Hload. injection Hload as <-. split; reflexivity.
Defined.

(** C1 fails as stated: a range of one day and two surviving rows give two
    records, the second of which repeats the start date. *)
Lemma loadOverviewData_exceeds_days :
  exists days,
    Repository.loadOverviewData plainParse oneDayTwoRows = Ok days
    /\ Calendar.parseISO "2024-01-01" = Some 19723%Z
    /\ (Z.of_nat (List.length days) > 19723 - 19723 + 1)%Z
    /\ map date days = ["2024-01-01"; "2024-01-01"]
    /\ map date days <> map Calendar.format [19723; 19724]%Z.
Proof.
  eexists. split; [vm_compute; reflexivity|].
  repeat split; try reflexivity. discriminate.
Qed.

(** C2 fails as stated: a count that is not a number becomes NaN in the
    typed record, on a row that both loaders keep. *)
Lemma coercion_gives_NaN :
  Repository.screenRow badScreenRow = true
  /\ views (Repository.toScreenView badScreenRow) = NaN
  /\ views (Repository.toScreenView badScreenRow) <> zero
  /\ Repository.eventRow badEventRow = true
  /\ eventCount (Repository.toAnalyticsEvent badEventRow) = NaN
  /\ eventCount (Repository.toAnalyticsEvent badEventRow) <> zero.
Proof. repeat split; try reflexivity; discriminate. Qed.

Lemma loaders_coercion_witness :
  zeroIfMissing parseInt (Some "n/a") = NaN
  /\ views (Repository.toScreenView [("Page title and screen class", "Home")]) = zero.
Proof.
  destruct (loaders_coercion [("Page title and screen class", "Home")])
    as (Hsv & _ & Hnan).
  split.
  - apply Hnan. reflexivity.
  - rewrite Hsv. reflexivity.
Defined.

(* ================================================================== *)
(** * Insertion-ordered maps: lookup, update, keys *)
(* ================================================================== *)

Section OMapFacts.
Context {V : Type}.
Implicit Types (m : OMap.omap V) (k : string) (v : V).

Lemma get_set_same m k v : OMap.get k (OMap.set k v m) = Some v.
Proof.
  induction m as [|[k' v'] m IH]; simpl.
  - rewrite String.eqb_refl. reflexivity.
  - destruct (String.eqb_spec k k') as [->|Hne]; simpl.
    + rewrite String.eqb_refl. reflexivity.
    + apply String.eqb_neq in Hne. rewrite Hne. exact IH.
Qed.

Lemma get_set_other m k k' v : k <> k' -> OMap.get k' (OMap.set k v m) = OMap.get k' m.
Proof.
  intros Hne. induction m as [|[k0 v0] m IH]; simpl.
  - destruct (String.eqb_spec k' k); [congruence|reflexivity].
  - destruct (String.eqb_spec k k0) as [->|Hk]; simpl.
    + destruct (String.eqb_spec k' k0); [congruence|reflexivity].
    + rewrite IH. reflexivity.
Qed.

Lemma get_set m k k' v :
  OMap.get k' (OMap.set k v m) = if String.eqb k k' then Some v else OMap.get k' m.
Proof.
  destruct (String.eqb_spec k k') as [->|Hne].
  - apply get_set_same.
  - apply get_set_other. exact Hne.
Qed.

Lemma get_none_keys m k : OMap.get k m = None <-> ~ In k (OMap.keys m).
Proof.
  induction m as [|[k' v'] m IH]; simpl; [tauto|].
  destruct (String.eqb_spec k k') as [->|Hne].
  - split; [discriminate|]. intros H. exfalso. apply H. left. reflexivity.
  - rewrite IH. split.
    + intros H [Heq|Hin]; [congruence|tauto].
    + tauto.
Qed.

Lemma get_some_in m k v : OMap.get k m = Some v -> In (k, v) m.
Proof.
  induction m as [|[k' v'] m IH]; simpl; [discriminate|].
  destruct (String.eqb_spec k k') as [->|Hne].
  - intros H. injection H as ->. left. reflexivity.
  - intros H. right. auto.
Qed.

Lemma in_get m k v : NoDup (OMap.keys m) -> In (k, v) m -> OMap.get k m = Some v.
Proof.
  induction m as [|[k' v'] m IH]; simpl; [tauto|].
  intros Hnd [Heq|Hin].
  - injection Heq as -> ->. rewrite String.eqb_refl. reflexivity.
  - inversion Hnd as [|? ? Hnotin Hnd']; subst.
    destruct (String.eqb_spec k k') as [->|Hne].
    + exfalso. apply Hnotin. change k' with (fst (k', v)). apply in_map. exact Hin.
    + auto.
Qed.

(** The keys after [set]: unchanged for a present key, extended at the end
    for a new one. *)
Lemma keys_set m k v :
  OMap.keys (OMap.set k v m)
  = match OMap.get k m with
    | Some _ => OMap.keys m
    | None => OMap.keys m ++ [k]
    end.
Proof.
  induction m as [|[k' v'] m IH]; simpl; [reflexivity|].
  destruct (String.eqb_spec k k') as [->|Hne]; simpl; [reflexivity|].
  rewrite IH. destruct (OMap.get k m); reflexivity.
Qed.

Lemma keys_set_nodup m k v : NoDup (OMap.keys m) -> NoDup (OMap.keys (OMap.set k v m)).
Proof.
  intros Hnd. rewrite keys_set.
  destruct (OMap.get k m) eqn:Hg; [assumption|].
  apply get_none_keys in Hg.
  apply NoDup_app; [assumption|repeat constructor; simpl; tauto|].
  intros x Hx [<-|[]]. contradiction.
Qed.

Lemma in_set m k v k' v' :
  In (k', v') (OMap.set k v m) -> (k', v') = (k, v) \/ In (k', v') m.
Proof.
  induction m as [|[k0 v0] m IH]; simpl.
  - intros [H|[]]. left. symmetry. exact H.
  - destruct (String.eqb_spec k k0) as [->|Hne]; simpl.
    + intros [H|H]; [left; symmetry; exact H|right; right; exact H].
    + intros [H|H]; [right; left; exact H|].
      destruct (IH H); [left|right; right]; assumption.
Qed.


End OMapFacts.

(* ================================================================== *)
(** * The stable sort *)
(* ================================================================== *)

Section SortFacts.
Context {A : Type} (after : A -> A -> bool).
Local Abbreviation precedes := (mayPrecede after).

Lemma insertBy_perm (x : A) (l : list A) : Permutation (insertBy after x l) (x :: l).
Proof.
  induction l as [|y l IH]; simpl; [reflexivity|].
  destruct (after x y); [|reflexivity].
  rewrite IH. apply perm_swap.
Qed.

Lemma sortBy_perm (l : list A) : Permutation (sortBy after l) l.
Proof.
  induction l as [|x l IH]; simpl; [reflexivity|].
  rewrite insertBy_perm, IH. reflexivity.
Qed.

(** On a domain [P] where the comparator is a total preorder, sorting
    arranges the list so that every element may precede all later ones. *)
Variable P : A -> Prop.
Hypothesis after_asym : forall a b, P a -> P b -> after a b = true -> after b a = false.
Hypothesis precede_trans :
  forall a b c, P a -> P b -> P c -> precedes a b -> precedes b c -> precedes a c.

Lemma insertBy_sorted (x : A) (l : list A) :
  P x -> Forall P l ->
  StronglySorted precedes l -> StronglySorted precedes (insertBy after x l).
Proof.
  intros Px Pl Hs. induction Hs as [|y l Hs IH Hy]; simpl.
  - repeat constructor.
  - inversion Pl as [|? ? Py Pl']; subst.
    destruct (after x y) eqn:Hxy.
    + constructor; [auto|].
      rewrite insertBy_perm.
      constructor; [|assumption]. apply after_asym; assumption.
    + constructor; [constructor; assumption|].
      constructor; [exact Hxy|].
      rewrite Forall_forall in *. intros z Hz.
      apply (precede_trans x y z); auto.
Qed.

Lemma sortBy_sorted (l : list A) :
  Forall P l -> StronglySorted precedes (sortBy after l).
Proof.
  induction 1 as [|x l Px Pl IH]; simpl; [constructor|].
  apply insertBy_sorted; auto.
  rewrite sortBy_perm. assumption.
Qed.


End SortFacts.

(* ================================================================== *)
(** * The order of the comparator *)
(* ================================================================== *)

Section NumberOrder.

Lemma positive_sub_fin (p q : Q) :
  positive (sub (Fin q) (Fin p)) = true <-> Qlt p q.
Proof.
  unfold sub, neg, add, positive, qpos.
  rewrite !Qred_correct.
  destruct (Qcompare_spec (Qplus q (Qopp p)) 0) as [H|H|H];
    split; intros H'; try discriminate; try reflexivity; lra.
Qed.

Lemma positive_sub_fin_false (p q : Q) :
  positive (sub (Fin q) (Fin p)) = false <-> Qle q p.
Proof.
  rewrite <- not_true_iff_false, positive_sub_fin. split; intros H; lra.
Qed.

Lemma positive_sub_asym (x y : number) :
  positive (sub y x) = true -> positive (sub x y) = false.
Proof.
  destruct x as [|[]|p], y as [|[]|q]; try (cbn; congruence).
  rewrite positive_sub_fin, positive_sub_fin_false. lra.
Qed.

Lemma positive_sub_trans (x y z : number) :
  isNaN x = false -> isNaN y = false -> isNaN z = false ->
  positive (sub y x) = false -> positive (sub z y) = false ->
  positive (sub z x) = false.
Proof.
  destruct x as [|[]|p], y as [|[]|q], z as [|[]|r]; try (cbn; congruence).
  intros _ _ _. rewrite !positive_sub_fin_false. lra.
Qed.

End NumberOrder.

(* ================================================================== *)
(** * The detailed feature aggregation *)
(* ================================================================== *)

Section DetailedFacts.
Import Repository.
Implicit Types (m : OMap.omap FeatureUsageDetail) (e : AnalyticsEvent) (s : ScreenView).

Lemma addEvent_set m e :
  addEvent m e = OMap.set (eventName e) (afterEvent (OMap.get (eventName e) m) e) m.
Proof. unfold addEvent. destruct (OMap.get (eventName e) m); reflexivity. Qed.

Lemma get_addEvent m e k :
  OMap.get k (addEvent m e)
  = if String.eqb (eventName e) k
    then Some (afterEvent (OMap.get k m) e)
    else OMap.get k m.
Proof.
  rewrite addEvent_set, get_set.
  destruct (String.eqb_spec (eventName e) k) as [->|]; reflexivity.
Qed.

Lemma addEvent_keys m e :
  OMap.keys (addEvent m e)
  = match OMap.get (eventName e) m with
    | Some _ => OMap.keys m
    | None => OMap.keys m ++ [eventName e]
    end.
Proof. rewrite addEvent_set. apply keys_set. Qed.

Lemma addEvent_nodup m e : NoDup (OMap.keys m) -> NoDup (OMap.keys (addEvent m e)).
Proof. rewrite addEvent_set. apply keys_set_nodup. Qed.

Lemma addScreen_nodup m s : NoDup (OMap.keys m) -> NoDup (OMap.keys (addScreen m s)).
Proof.
  unfold addScreen. destruct (isFeatureScreen s); [apply keys_set_nodup|auto].
Qed.

Lemma fold_addEvent_nodup (events : list AnalyticsEvent) m :
  NoDup (OMap.keys m) -> NoDup (OMap.keys (fold_left addEvent events m)).
Proof.
  revert m. induction events as [|e events IH]; intros m H; simpl; [exact H|].
  apply IH, addEvent_nodup, H.
Qed.

Lemma fold_addScreen_nodup (screenViews : list ScreenView) m :
  NoDup (OMap.keys m) -> NoDup (OMap.keys (fold_left addScreen screenViews m)).
Proof.
  revert m. induction screenViews as [|s l IH]; intros m H; simpl; [exact H|].
  apply IH, addScreen_nodup, H.
Qed.








End DetailedFacts.

Section DetailedOrder.
Import Repository.




End DetailedOrder.



(* ================================================================== *)
(** * Integer counts *)
(* ================================================================== *)

Section IntegerCounts.




End IntegerCounts.

(* ================================================================== *)
(** * Merging an event into a screen entry *)
(* ================================================================== *)

Section MergeTheorems.
Import Repository.
Implicit Types (m : OMap.omap FeatureUsageDetail) (e : AnalyticsEvent) (s : ScreenView).

(** What a merge leaves alone: the four other fields of the entry, the keys
    of the map and their order, and every other entry. *)
Lemma addEvent_frame m e (existing : FeatureUsageDetail) :
  OMap.get (eventName e) m = Some existing ->
  OMap.get (eventName e) (addEvent m e) = Some (mergeEvent existing e)
  /\ OMap.keys (addEvent m e) = OMap.keys m
  /\ forall k, k <> eventName e -> OMap.get k (addEvent m e) = OMap.get k m.
Proof.
  intros Hget. split; [|split].
  - rewrite get_addEvent, String.eqb_refl, Hget. reflexivity.
  - rewrite addEvent_keys, Hget. reflexivity.
  - intros k Hk. rewrite get_addEvent.
    destruct (String.eqb_spec (eventName e) k); [congruence|reflexivity].
Qed.

(** An entry seeded from a screen is still a screen entry with the screen's
    name and engagement time after any events. *)
Lemma seeded_entry (events : list AnalyticsEvent) m (f : FeatureUsageDetail) (k : string) :
  OMap.get k m = Some f ->
  exists f',
    OMap.get k (fold_left addEvent events m) = Some f'
    /\ featureName f' = featureName f
    /\ featureType f' = featureType f
    /\ engagementTime f' = engagementTime f
    /\ relatedScreens f' = relatedScreens f.
Proof.
  revert m f. induction events as [|e events IH]; intros m f Hget; simpl.
  - exists f. repeat split; assumption.
  - assert (Hstep : exists f1, OMap.get k (addEvent m e) = Some f1
                               /\ featureName f1 = featureName f
                               /\ featureType f1 = featureType f
                               /\ engagementTime f1 = engagementTime f
                               /\ relatedScreens f1 = relatedScreens f).
    { rewrite get_addEvent. destruct (String.eqb_spec (eventName e) k).
      - rewrite Hget. eexists. split; [reflexivity|]. repeat split.
      - exists f. repeat split; assumption. }
    destruct Hstep as (f1 & Hg1 & Hn & Ht & He & Hr).
    destruct (IH _ _ Hg1) as (f' & Hg' & Hn' & Ht' & He' & Hr').
    exists f'. repeat split; congruence.
Qed.


(** C10.  Let an entry be seeded from a screen [s] and let any events follow.
    When a further event [e] carries the screen's name, the merge changes
    nothing but usageCount, uniqueUsers and avgUsagePerUser: featureName is
    still the screen's class, engagementTime the screen's average engagement
    time, featureType [screen] and relatedScreens unset, as before the merge;
    the keys of the map keep their order and all other entries stay as they
    were. *)
Theorem merge_keeps_seeded_fields m s (events : list AnalyticsEvent) e :
  isFeatureScreen s = true ->
  eventName e = screenClass s ->
  exists existing merged,
    OMap.get (eventName e) (fold_left addEvent events (addScreen m s)) = Some existing
    /\ OMap.get (eventName e)
                (addEvent (fold_left addEvent events (addScreen m s)) e)
       = Some merged
    /\ featureName merged = featureName existing
    /\ featureName merged = screenClass s
    /\ featureType merged = featureType existing
    /\ featureType merged = screen
    /\ engagementTime merged = engagementTime existing
    /\ engagementTime merged = Some (avgEngagementTime s)
    /\ relatedScreens merged = relatedScreens existing
    /\ OMap.keys (addEvent (fold_left addEvent events (addScreen m s)) e)
       = OMap.keys (fold_left addEvent events (addScreen m s))
    /\ forall k, k <> eventName e ->
                 OMap.get k (addEvent (fold_left addEvent events (addScreen m s)) e)
                 = OMap.get k (fold_left addEvent events (addScreen m s)).
Proof.
  intros Hs Hn.
  assert (Hseed : OMap.get (eventName e) (addScreen m s) = Some (screenFeature s)).
  { unfold addScreen. rewrite Hs, Hn. apply get_set_same. }
  destruct (seeded_entry events _ _ _ Hseed) as (existing & Hget & Hfn & Hft & Het & Hrs).
  destruct (addEvent_frame _ e existing Hget) as (Hm & Hkeys & Hothers).
  exists existing, (mergeEvent existing e).
  repeat split; try assumption; simpl; congruence.
Qed.

End MergeTheorems.


Lemma merge_keeps_seeded_fields_witness :
  exists merged,
    OMap.get "HomeScreen"
             (Repository.addEvent
                (fold_left Repository.addEvent [alphaEvent; homeEvent]
                           (Repository.addScreen [] homeScreen))
                homeEvent)
    = Some merged
    /\ Repository.featureName merged = "HomeScreen"
    /\ Repository.engagementTime merged = Some (Fin (226 # 5)).
Proof.
  destruct (merge_keeps_seeded_fields [] homeScreen [alphaEvent; homeEvent] homeEvent
              eq_refl eq_refl)
    as (existing & merged & _ & Hget & _ & Hn & _ & _ & _ & He & _).
  exists merged. repeat split; assumption.
Defined.

(* ================================================================== *)
(** * Where the entries come from *)
(* ================================================================== *)

Lemma fold_left_inv {A B : Type} (step : B -> A -> B) (I : B -> Prop) (l : list A) (b : B) :
  (forall x b', In x l -> I b' -> I (step b' x)) -> I b -> I (fold_left step l b).
Proof.
  revert b. induction l as [|x l IH]; intros b Hstep Hb; simpl; [exact Hb|].
  apply IH.
  - intros y b' Hy. apply Hstep. right. exact Hy.
  - apply Hstep; [left; reflexivity|exact Hb].
Qed.

Lemma in_firstn {A : Type} (n : nat) (l : list A) (x : A) :
  In x (firstn n l) -> In x l.
Proof.
  intros H. rewrite <- (firstn_skipn n l). apply in_or_app. left. exact H.
Qed.

Section DetailedOrigin.
Import Repository.
Variables (events : list AnalyticsEvent) (screenViews : list ScreenView).

Lemma addScreen_inv m s :
  In s screenViews -> detailedInv events screenViews m ->
  detailedInv events screenViews (addScreen m s).
Proof.
  intros Hs Hinv. unfold addScreen.
  destruct (isFeatureScreen s) eqn:Hfs; [|exact Hinv].
  intros k f Hin. apply in_set in Hin. destruct Hin as [Heq|Hin]; [|auto].
  injection Heq as -> ->. split; [reflexivity|].
  left. exists s. auto.
Qed.

Lemma addEvent_inv m e :
  In e events -> detailedInv events screenViews m ->
  detailedInv events screenViews (addEvent m e).
Proof.
  intros He Hinv. rewrite addEvent_set.
  intros k f Hin. apply in_set in Hin. destruct Hin as [Heq|Hin]; [|auto].
  injection Heq as -> ->. split.
  - destruct (OMap.get (eventName e) m) as [existing|] eqn:Hget; simpl; [|reflexivity].
    apply get_some_in in Hget. apply (Hinv _ _ Hget).
  - right. exists e. auto.
Qed.

Lemma attachRelated_name (entry : string * FeatureUsageDetail) :
  fst (attachRelated screenViews entry) = fst entry
  /\ featureName (snd (attachRelated screenViews entry)) = featureName (snd entry).
Proof.
  destruct entry as [k f]. unfold attachRelated.
  destruct (featureType f); try (split; reflexivity);
    destruct (0 <? _); split; reflexivity.
Qed.

Lemma mergedFeatures_inv : detailedInv events screenViews (mergedFeatures events screenViews).
Proof.
  unfold mergedFeatures. intros k f Hin.
  apply in_map_iff in Hin. destruct Hin as ([k0 f0] & Heq & Hin).
  destruct (attachRelated_name (k0, f0)) as [Hk Hn].
  rewrite Heq in Hk, Hn. simpl in Hk, Hn. subst k0. rewrite Hn.
  revert Hin. generalize k f0. clear.
  change (detailedInv events screenViews
            (fold_left addEvent events (fold_left addScreen screenViews OMap.empty))).
  apply fold_left_inv.
  - intros e m He. apply addEvent_inv. exact He.
  - apply fold_left_inv.
    + intros s m Hs. apply addScreen_inv. exact Hs.
    + intros k f [].
Qed.

End DetailedOrigin.

Lemma isFeatureScreen_not_sentinel (s : ScreenView) :
  Repository.isFeatureScreen s = true -> isSentinel (screenClass s) = false.
Proof.
  unfold Repository.isFeatureScreen, isSentinel. intros H.
  apply andb_true_iff in H. destruct H as [H H2].
  apply andb_true_iff in H. destruct H as [_ H1].
  apply negb_true_iff in H1, H2. rewrite H1, H2. reflexivity.
Qed.

(** C5, as the code has it.  No screen named [(not set)] or [(other)] is
    seeded as a feature: an entry of the detailed feature list with one of
    these names exists only when an event carries that name. *)
Theorem sentinel_feature_from_event (events : list AnalyticsEvent)
        (screenViews : list ScreenView) (f : Repository.FeatureUsageDetail) :
  In f (Repository.featureUsage events screenViews) ->
  isSentinel (Repository.featureName f) = true ->
  exists e, In e events /\ eventName e = Repository.featureName f.
Proof.
  intros Hin Hsent. unfold Repository.featureUsage in Hin.
  apply (Permutation_in _ (sortBy_perm _ _)) in Hin.
  apply in_map_iff in Hin. destruct Hin as ([k f0] & Heq & Hin). simpl in Heq. subst f0.
  destruct (mergedFeatures_inv events screenViews k f Hin) as [Hname [Hscr|Hev]].
  - destruct Hscr as (s & _ & Hfs & Hk).
    apply isFeatureScreen_not_sentinel in Hfs. congruence.
  - rewrite Hname. exact Hev.
Qed.

(** C5 fails as stated: an event named [(other)] becomes an entry. *)
Lemma sentinel_event_is_a_feature :
  exists f,
    In f (Repository.featureUsage [otherEvent] [])
    /\ Repository.featureName f = "(other)".
Proof. eexists. split; [left; reflexivity|reflexivity]. Qed.

Lemma sentinel_feature_from_event_witness :
  exists e, In e [otherEvent; alphaEvent] /\ eventName e = "(other)".
Proof.
  apply (sentinel_feature_from_event [otherEvent; alphaEvent] [homeScreen]
           (Repository.eventFeature otherEvent)).
  - vm_compute. auto.
  - reflexivity.
Defined.

(* ================================================================== *)
(** * The summary aggregation (topFeatures) *)
(* ================================================================== *)

Section SummaryFacts.
Import Service.
Variables (events : list AnalyticsEvent) (screenViews : list ScreenView).
Implicit Types (m : OMap.omap FeatureUsageStats) (e : AnalyticsEvent) (s : ScreenView).

Lemma summary_addScreen_inv m s :
  In s screenViews -> summaryInv events screenViews m ->
  summaryInv events screenViews (addScreen m s).
Proof.
  intros Hs Hinv. unfold addScreen.
  destruct (isFeatureScreen s) eqn:Hfs; [|exact Hinv].
  intros k f Hin. apply in_set in Hin. destruct Hin as [Heq|Hin]; [|auto].
  injection Heq as -> ->. split; [reflexivity|].
  left. split; [|reflexivity]. exists s. auto.
Qed.

Lemma summary_addEvent_inv m e :
  In e events -> summaryInv events screenViews m ->
  summaryInv events screenViews (addEvent m e).
Proof.
  intros He Hinv. unfold addEvent.
  destruct (existsb (String.eqb (eventName e)) systemEvents) eqn:Hsys; simpl;
    [exact Hinv|].
  destruct (OMap.get (eventName e) m) as [existing|] eqn:Hget;
    intros k f Hin; apply in_set in Hin; destruct Hin as [Heq|Hin]; auto;
    injection Heq as -> ->.
  - apply get_some_in in Hget. destruct (Hinv _ _ Hget) as [Hn Horigin].
    split; [exact Hn|exact Horigin].
  - split; [reflexivity|]. right. split; [exists e; auto|exact Hsys].
Qed.

Lemma summary_mergedFeatures_inv :
  summaryInv events screenViews (mergedFeatures events screenViews).
Proof.
  unfold mergedFeatures. apply fold_left_inv.
  - intros e m He. apply summary_addEvent_inv. exact He.
  - apply fold_left_inv.
    + intros s m Hs. apply summary_addScreen_inv. exact Hs.
    + intros k f [].
Qed.




End SummaryFacts.




(* ================================================================== *)
(** * The locator and the folder list *)
(* ================================================================== *)

Section LocatorFacts.
Import Repository.

Lemma pathJoin_truthy (dir name : string) : truthy (pathJoin dir name) = true.
Proof. unfold pathJoin. destruct dir; reflexivity. Qed.

Lemma startsWith_app (s p q : string) :
  startsWith s (p ++ q)%string = true -> startsWith s p = true.
Proof.
  revert s. induction p as [|a p IH]; intros s; [destruct s; reflexivity|].
  destruct s as [|b s]; simpl; [discriminate|].
  intros H. apply andb_true_iff in H. destruct H as [Hab H].
  rewrite Hab. simpl. apply IH. exact H.
Qed.

(** The locator finds a file exactly when some entry is accepted. *)
Lemma findCSVFile_found (d : Disk) (pattern : string) :
  existsSync d = true ->
  (exists path, findCSVFile d pattern = Some path)
  <-> existsb (accepts pattern) (readdirSync d) = true.
Proof.
  intros Hex. unfold findCSVFile. rewrite Hex. simpl.
  change (fun file : string =>
            startsWith (toLowerCase file) (toLowerCase (replace pattern ".csv" ""))
            && endsWith (toLowerCase file) ".csv") with (scanTest pattern).
  destruct (existsb (String.eqb pattern) (readdirSync d)) eqn:Hexact.
  - split; [|intros _; eexists; reflexivity].
    intros _. apply existsb_exists in Hexact. destruct Hexact as (f & Hin & Hf).
    apply existsb_exists. exists f. split; [exact Hin|].
    unfold accepts. rewrite Hf. reflexivity.
  - destruct (find (scanTest pattern) (readdirSync d)) as [g|] eqn:Hfind.
    + destruct (find_first _ _ _ Hfind) as (Hg & b & a & Hsplit & _).
      assert (Hne : truthy g = true).
      { unfold scanTest in Hg. apply andb_true_iff in Hg. destruct Hg as [_ Hg].
        destruct g; [discriminate|reflexivity]. }
      rewrite Hne. split; [|intros _; eexists; reflexivity].
      intros _. apply existsb_exists. exists g. split.
      * rewrite Hsplit. apply in_or_app. right. left. reflexivity.
      * unfold accepts. rewrite Hg. apply orb_true_r.
    + split; [intros [p Hp]; discriminate|].
      intros H. apply existsb_exists in H. destruct H as (f & Hin & Hf).
      unfold accepts in Hf. apply orb_true_iff in Hf. destruct Hf as [Hf|Hf].
      * assert (Hc : existsb (String.eqb pattern) (readdirSync d) = true)
          by (apply existsb_exists; exists f; auto).
        congruence.
      * rewrite (find_none_iff _ _ f Hfind Hin) in Hf. discriminate.
Qed.

Lemma orPath_found (a b : option string) :
  (forall p, a = Some p -> truthy p = true) ->
  (exists path, orPath a b = Some path)
  <-> (exists p, a = Some p) \/ (exists p, b = Some p).
Proof.
  intros Ha. unfold orPath. destruct a as [p|].
  - rewrite (Ha p eq_refl). split; [intros _; left|intros _]; eexists; reflexivity.
  - split; [intros H; right; exact H|].
    intros [[p Hp]|H]; [discriminate|exact H].
Qed.

Lemma findCSVFile_truthy (d : Disk) (pattern p : string) :
  findCSVFile d pattern = Some p -> truthy p = true.
Proof.
  unfold findCSVFile.
  destruct (negb (existsSync d)); [discriminate|].
  destruct (existsb _ _).
  - intros H. injection H as <-. apply pathJoin_truthy.
  - destruct (find _ _) as [g|]; [|discriminate].
    destruct (truthy g); [|discriminate].
    intros H. injection H as <-. apply pathJoin_truthy.
Qed.

(** The three tests of the folder list, in terms of the locator's. *)
Lemma overview_accepts (f : string) :
  accepts "Firebase_overview.csv" f
  = startsWith (toLowerCase f) "firebase_overview" && endsWith (toLowerCase f) ".csv".
Proof.
  unfold accepts.
  destruct (String.eqb_spec "Firebase_overview.csv" f) as [<-|_]; reflexivity.
Qed.

Lemma events_accepts (f : string) :
  accepts "Events_Event_name1.csv" f || accepts "Events_Event_name.csv" f
  = startsWith (toLowerCase f) "events_event_name" && endsWith (toLowerCase f) ".csv".
Proof.
  unfold accepts.
  destruct (String.eqb_spec "Events_Event_name1.csv" f) as [<-|_]; [reflexivity|].
  destruct (String.eqb_spec "Events_Event_name.csv" f) as [<-|_]; [reflexivity|].
  simpl orb at 2 3.
  change (scanTest "Events_Event_name.csv" f)
    with (startsWith (toLowerCase f) "events_event_name" && endsWith (toLowerCase f) ".csv").
  destruct (scanTest "Events_Event_name1.csv" f) eqn:H1; [|reflexivity].
  unfold scanTest in H1. apply andb_true_iff in H1. destruct H1 as [Hp Hs].
  change (toLowerCase (replace "Events_Event_name1.csv" ".csv" ""))
    with ("events_event_name" ++ "1")%string in Hp.
  apply startsWith_app in Hp. rewrite Hp, Hs. reflexivity.
Qed.

Lemma pages_accepts (f : string) :
  accepts "Pages_and_screens_Page_title_and_screen_class1.csv" f
  || accepts "Pages_and_screens_Page_title_and_screen_class.csv" f
  = startsWith (toLowerCase f) "pages_and_screens_page_title_and_screen_class"
    && endsWith (toLowerCase f) ".csv".
Proof.
  unfold accepts.
  destruct (String.eqb_spec "Pages_and_screens_Page_title_and_screen_class1.csv" f)
    as [<-|_]; [reflexivity|].
  destruct (String.eqb_spec "Pages_and_screens_Page_title_and_screen_class.csv" f)
    as [<-|_]; [reflexivity|].
  simpl orb at 2 3.
  change (scanTest "Pages_and_screens_Page_title_and_screen_class.csv" f)
    with (startsWith (toLowerCase f) "pages_and_screens_page_title_and_screen_class"
          && endsWith (toLowerCase f) ".csv").
  destruct (scanTest "Pages_and_screens_Page_title_and_screen_class1.csv" f) eqn:H1;
    [|reflexivity].
  unfold scanTest in H1. apply andb_true_iff in H1. destruct H1 as [Hp Hs].
  change (toLowerCase (replace "Pages_and_screens_Page_title_and_screen_class1.csv"
                               ".csv" ""))
    with ("pages_and_screens_page_title_and_screen_class" ++ "1")%string in Hp.
  apply startsWith_app in Hp. rewrite Hp, Hs. reflexivity.
Qed.

Lemma existsb_orb {A : Type} (f g : A -> bool) (l : list A) :
  existsb (fun x => f x || g x) l = existsb f l || existsb g l.
Proof.
  induction l as [|x l IH]; simpl; [reflexivity|].
  rewrite IH. destruct (f x), (g x), (existsb f l), (existsb g l); reflexivity.
Qed.

Lemma existsb_ext' {A : Type} (f g : A -> bool) (l : list A) :
  (forall x, f x = g x) -> existsb f l = existsb g l.
Proof. intros H. induction l; simpl; [reflexivity|]. rewrite H, IHl. reflexivity. Qed.

Lemma locate_two (d : Disk) (p1 p2 : string) :
  existsSync d = true ->
  (exists path, orPath (findCSVFile d p1) (findCSVFile d p2) = Some path)
  <-> existsb (fun f => accepts p1 f || accepts p2 f) (readdirSync d) = true.
Proof.
  intros Hex. rewrite orPath_found by (apply findCSVFile_truthy).
  rewrite !(findCSVFile_found d _ Hex), existsb_orb.
  symmetry. apply orb_true_iff.
Qed.

End LocatorFacts.

Section FolderTheorems.
Import Repository.
Variable parse : string -> option (list row).

Lemma loadEventsData_ok (d : Disk) :
  (exists events, loadEventsData parse d = Ok events)
  <-> exists path, orPath (findCSVFile d "Events_Event_name1.csv")
                          (findCSVFile d "Events_Event_name.csv") = Some path.
Proof.
  unfold loadEventsData.
  destruct (orPath _ _) as [p|]; split; intros [x Hx]; try discriminate; eexists; reflexivity.
Qed.

Lemma loadScreenViewsData_ok (d : Disk) :
  (exists screens, loadScreenViewsData parse d = Ok screens)
  <-> exists path,
        orPath (findCSVFile d "Pages_and_screens_Page_title_and_screen_class1.csv")
               (findCSVFile d "Pages_and_screens_Page_title_and_screen_class.csv")
        = Some path.
Proof.
  unfold loadScreenViewsData.
  destruct (orPath _ _) as [p|]; split; intros [x Hx]; try discriminate; eexists; reflexivity.
Qed.

(** X1.  A folder that exists passes the test of the folder list exactly when
    the locator finds the overview file and the events and screens loaders
    return: the folders offered to the user are those whose three files the
    loaders can locate. *)
Theorem dataset_iff_loaders_locate (d : Disk) :
  existsSync d = true ->
  Folders.isDataset (readdirSync d) = true
  <-> (exists path, findCSVFile d "Firebase_overview.csv" = Some path)
      /\ (exists events, loadEventsData parse d = Ok events)
      /\ (exists screens, loadScreenViewsData parse d = Ok screens).
Proof.
  intros Hex.
  rewrite loadEventsData_ok, loadScreenViewsData_ok.
  rewrite (findCSVFile_found d _ Hex), !(locate_two d _ _ Hex).
  rewrite (existsb_ext' _ _ _ overview_accepts).
  rewrite (existsb_ext' _ _ _ events_accepts).
  rewrite (existsb_ext' _ _ _ pages_accepts).
  unfold Folders.isDataset, Folders.hasCsv.
  rewrite !andb_true_iff. tauto.
Qed.

(** X2.  When the folder does not exist, the three loaders throw their
    file-not-found error (whatever the parser is) and the dashboard summary
    throws the overview loader's, while the lenient date-range getter answers
    with the last 30 days. *)
Theorem missing_folder (d : Disk) (today : Z) :
  existsSync d = false ->
  loadOverviewData parse d
  = Throw ("File not found: Firebase_overview*.csv in " ++ csvDir d)
  /\ loadEventsData parse d
     = Throw ("File not found: Events_Event_name*.csv in " ++ csvDir d)
  /\ loadScreenViewsData parse d
     = Throw ("File not found: Pages_and_screens_Page_title_and_screen_class*.csv in "
                ++ csvDir d)
  /\ RepositoryViews.getDefaultDateRange today d
     = {| startDate := Calendar.format (today - 30);
          endDate := Calendar.format today |}
  /\ ServiceViews.getDashboardSummary parse today d
     = Throw ("File not found: Firebase_overview*.csv in " ++ csvDir d).
Proof.
  intros Hex.
  assert (Hnone : forall pattern, findCSVFile d pattern = None)
    by (intros pattern; unfold findCSVFile; rewrite Hex; reflexivity).
  unfold ServiceViews.getDashboardSummary.
  unfold loadOverviewData, loadEventsData, loadScreenViewsData,
    RepositoryViews.getDefaultDateRange.
  rewrite !Hnone. repeat split.
Qed.

End FolderTheorems.

Lemma dataset_iff_loaders_locate_witness :
  Folders.isDataset ["firebase_overview3.csv"; "EVENTS_EVENT_NAME.CSV";
                     "Pages_and_screens_Page_title_and_screen_class1.csv"] = true
  /\ exists events,
       Repository.loadEventsData plainParse
         (folderOf "data"
            [("firebase_overview3.csv", ""); ("EVENTS_EVENT_NAME.CSV", "");
             ("Pages_and_screens_Page_title_and_screen_class1.csv", "")])
       = Ok events.
Proof.
  split; [reflexivity|].
  apply (dataset_iff_loaders_locate plainParse
           (folderOf "data"
              [("firebase_overview3.csv", ""); ("EVENTS_EVENT_NAME.CSV", "");
               ("Pages_and_screens_Page_title_and_screen_class1.csv", "")])
           eq_refl).
  reflexivity.
Defined.

Lemma missing_folder_witness :
  Repository.loadEventsData plainParse
    {| csvDir := "data/none"; existsSync := false; readdirSync := [];
       readFileSync := fun _ => "" |}
  = Throw "File not found: Events_Event_name*.csv in data/none".
Proof.
  apply (missing_folder plainParse
           {| csvDir := "data/none"; existsSync := false; readdirSync := [];
              readFileSync := fun _ => "" |} 0%Z eq_refl).
Defined.

(* ================================================================== *)
(** * The order of names *)
(* ================================================================== *)

Section NameOrder.

Lemma ascii_compare_refl (a : ascii) : Ascii.compare a a = Eq.
Proof. unfold Ascii.compare. apply N.compare_refl. Qed.

Lemma ascii_compare_lt_trans (a b c : ascii) :
  Ascii.compare a b = Lt -> Ascii.compare b c = Lt -> Ascii.compare a c = Lt.
Proof.
  unfold Ascii.compare. rewrite !N.compare_lt_iff. apply N.lt_trans.
Qed.

Lemma string_compare_lt_trans (s1 s2 s3 : string) :
  String.compare s1 s2 = Lt -> String.compare s2 s3 = Lt -> String.compare s1 s3 = Lt.
Proof.
  revert s2 s3. induction s1 as [|a s1 IH]; intros [|b s2] [|c s3]; simpl;
    try discriminate; try reflexivity.
  destruct (Ascii.compare a b) eqn:Hab; try discriminate;
    destruct (Ascii.compare b c) eqn:Hbc; try discriminate; intros H1 H2.
  - apply Ascii.compare_eq_iff in Hab, Hbc. subst.
    rewrite ascii_compare_refl. eapply IH; eassumption.
  - apply Ascii.compare_eq_iff in Hab. subst. rewrite Hbc. reflexivity.
  - apply Ascii.compare_eq_iff in Hbc. subst. rewrite Hab. reflexivity.
  - rewrite (ascii_compare_lt_trans _ _ _ Hab Hbc). reflexivity.
Qed.

Lemma string_compare_eq (s1 s2 : string) : String.compare s1 s2 = Eq -> s1 = s2.
Proof. apply String.compare_eq_iff. Qed.

Lemma string_ltb_asym (a b : string) : String.ltb a b = true -> String.ltb b a = false.
Proof.
  unfold String.ltb. rewrite (String.compare_antisym b a).
  destruct (String.compare a b); simpl; congruence.
Qed.

(** [a <= b] and [b <= c] give [a <= c], with [x <= y] read as "not y < x". *)
Lemma string_ltb_trans (a b c : string) :
  String.ltb b a = false -> String.ltb c b = false -> String.ltb c a = false.
Proof.
  unfold String.ltb. intros H1 H2.
  destruct (String.compare c a) eqn:Hca; try reflexivity. exfalso.
  destruct (String.compare b a) eqn:Hba; [|discriminate|];
    (destruct (String.compare c b) eqn:Hcb; [|discriminate|]).
  - apply string_compare_eq in Hba, Hcb. subst.
    pose proof (String.compare_antisym a a) as Hrefl.
    rewrite Hca in Hrefl. discriminate.
  - apply string_compare_eq in Hba. subst. congruence.
  - apply string_compare_eq in Hcb. subst. congruence.
  - rewrite String.compare_antisym in Hba, Hcb.
    destruct (String.compare a b) eqn:Hab; try discriminate.
    destruct (String.compare b c) eqn:Hbc; try discriminate.
    pose proof (string_compare_lt_trans _ _ _ Hab Hbc) as Hac.
    rewrite String.compare_antisym, Hac in Hca. discriminate.
Qed.

End NameOrder.

(** X3.  The folder list holds exactly the names of the sub-directories of an
    existing data directory that hold all three kinds of file, and it is in
    ascending order of names; it is empty when the data directory does not
    exist. *)
Theorem listFolders_spec (dataDir : DataDir) :
  (forall name,
      In name (Folders.listFolders dataDir)
      <-> dataDirExists dataDir = true
          /\ In (name, true) (dataDirEntries dataDir)
          /\ Folders.isDataset (folderFiles dataDir name) = true)
  /\ StronglySorted (fun a b => String.ltb b a = false) (Folders.listFolders dataDir).
Proof.
  unfold Folders.listFolders. destruct (dataDirExists dataDir); simpl.
  - split.
    + intros name. unfold Folders.sortNames.
      split.
      * intros Hin. apply (Permutation_in _ (sortBy_perm _ _)) in Hin.
        apply filter_In in Hin. destruct Hin as [Hin Hds].
        apply in_map_iff in Hin. destruct Hin as ([n b] & Hn & Hin).
        apply filter_In in Hin. destruct Hin as [Hin Hb]. simpl in *. subst.
        auto.
      * intros (_ & Hin & Hds).
        apply (Permutation_in _ (Permutation_sym (sortBy_perm _ _))).
        apply filter_In. split; [|exact Hds].
        apply in_map_iff. exists (name, true). split; [reflexivity|].
        apply filter_In. split; [exact Hin|reflexivity].
    + unfold Folders.sortNames.
      apply (sortBy_sorted (fun a b => String.ltb b a) (fun _ => True)).
      * intros a b _ _. apply string_ltb_asym.
      * intros a b c _ _ _. unfold mayPrecede. intros H1 H2.
        exact (string_ltb_trans a b c H1 H2).
      * apply Forall_forall. auto.
  - split; [|constructor].
    intros name. split; [intros []|intros (H & _); discriminate].
Qed.

(* ================================================================== *)
(** * More on the parser and the loaders *)
(* ================================================================== *)

Section FallbackFacts.
Import Repository.






End FallbackFacts.


Section IsolationTheorems.
Import Repository.
Variable parse : string -> option (list row).

(** X5.  What follows the start of the next section never reaches the rows
    of the selected section: two files that agree up to and including the
    first section start after the header give the same rows. *)
Theorem later_sections_ignored (sec : option string) (content content' : string)
        (before body rest rest' : list string) (header boundary : string) :
  split LF content = before ++ header :: body ++ boundary :: rest ->
  split LF content' = before ++ header :: body ++ boundary :: rest' ->
  noHeaderLine sec before ->
  isHeaderLine sec header = true ->
  forallb (fun l => negb (isSectionStart l)) body = true ->
  isSectionStart boundary = true ->
  parseContent parse content sec = parseContent parse content' sec
  /\ parseContent parse content sec = parsedRows parse header (filter isDataLine body).
Proof.
  intros Hc Hc' Hb Hh Hbody Hbd.
  assert (Hsec : forall r l, l = before ++ header :: body ++ boundary :: r ->
                             sectionOf sec l header body).
  { intros r l ->. exists before, (boundary :: r). repeat split; auto.
    right. exists boundary, r. auto. }
  rewrite !parseContent_rows.
  rewrite (sectionLines_of_section _ _ _ _ (Hsec rest _ Hc)).
  rewrite (sectionLines_of_section _ _ _ _ (Hsec rest' _ Hc')).
  split; reflexivity.
Qed.

(** X6.  Every record of the screens loader has a non-empty screen class and
    every record of the events loader a non-empty event name, and neither
    loader returns more records than the parser gave rows. *)
Theorem loaded_records_named (d : Disk) :
  (forall screens,
      loadScreenViewsData parse d = Ok screens ->
      Forall (fun s => truthy (screenClass s) = true) screens
      /\ exists path,
           List.length screens
           <= List.length (parseCSV parse d path (Some "Page title and screen class")))
  /\ (forall events,
         loadEventsData parse d = Ok events ->
         Forall (fun e => truthy (eventName e) = true) events
         /\ exists path,
              List.length events
              <= List.length (parseCSV parse d path (Some "Event name"))).
Proof.
  split.
  - intros screens. unfold loadScreenViewsData.
    destruct (orPath _ _) as [path|]; [|discriminate].
    intros H. injection H as <-. split.
    + apply Forall_forall. intros s Hs.
      apply in_map_iff in Hs. destruct Hs as (r & <- & Hr).
      apply filter_In in Hr. destruct Hr as [_ Hr].
      unfold screenRow in Hr. apply andb_true_iff in Hr. destruct Hr as [Hr _].
      simpl. unfold present, orElse in *.
      destruct (field r "Page title and screen class") as [v|]; [|discriminate].
      rewrite Hr. exact Hr.
    + exists path. rewrite length_map. apply filter_length_le.
  - intros events. unfold loadEventsData.
    destruct (orPath _ _) as [path|]; [|discriminate].
    intros H. injection H as <-. split.
    + apply Forall_forall. intros e He.
      apply in_map_iff in He. destruct He as (r & <- & Hr).
      apply filter_In in Hr. destruct Hr as [_ Hr].
      unfold eventRow in Hr. apply andb_true_iff in Hr. destruct Hr as [Hr _].
      simpl. unfold present, orElse in *.
      destruct (field r "Event name") as [v|]; [|discriminate].
      rewrite Hr. exact Hr.
    + exists path. rewrite length_map. apply filter_length_le.
Qed.

End IsolationTheorems.

Lemma later_sections_ignored_witness :
  Repository.parseContent plainParse (sectionThenMore ["Other,30 days"; "9,9"])
                          (Some "30 days")
  = Repository.parseContent plainParse (sectionThenMore []) (Some "30 days").
Proof.
  apply (later_sections_ignored plainParse (Some "30 days")
           (sectionThenMore ["Other,30 days"; "9,9"]) (sectionThenMore [])
           ["# Start date: 20240101"] ["0,10"] ["Other,30 days"; "9,9"] []
           "Nth day,30 days" "# Start date: 20240101");
    reflexivity.
Defined.

Lemma loaded_records_named_witness :
  exists screens,
    Repository.loadScreenViewsData plainParse smallDataset = Ok screens
    /\ Forall (fun s => truthy (screenClass s) = true) screens
    /\ map screenClass screens = ["HomeScreen"; "DocumentViewController"; "(not set)"].
Proof.
  destruct (Repository.loadScreenViewsData plainParse smallDataset) as [screens|msg] eqn:Hload.
  - exists screens. split; [reflexivity|].
    destruct (loaded_records_named plainParse smallDataset) as [Hscr _].
    split; [exact (proj1 (Hscr screens Hload))|].
    vm_compute in Hload. injection Hload as <-. reflexivity.
  - vm_compute in Hload. discriminate.
Defined.

(* ================================================================== *)
(** * The detailed feature map, key by key *)
(* ================================================================== *)

Section DetailedByKey.
Import Repository.
Implicit Types (m : OMap.omap FeatureUsageDetail) (e : AnalyticsEvent) (s : ScreenView).

Lemma find_snoc {A : Type} (f : A -> bool) (l : list A) (x : A) :
  find f (l ++ [x])
  = match find f l with
    | Some y => Some y
    | None => if f x then Some x else None
    end.
Proof.
  induction l as [|y l IH]; simpl; [reflexivity|].
  destruct (f y); [reflexivity|exact IH].
Qed.

Lemma get_addScreen m s k :
  OMap.get k (addScreen m s)
  = if isFeatureScreen s && String.eqb (screenClass s) k
    then Some (screenFeature s) else OMap.get k m.
Proof.
  unfold addScreen. destruct (isFeatureScreen s); simpl; [|reflexivity].
  apply get_set.
Qed.

Lemma get_fold_addScreen (screenViews : list ScreenView) m k :
  OMap.get k (fold_left addScreen screenViews m)
  = match seedOf screenViews k with
    | Some s => Some (screenFeature s)
    | None => OMap.get k m
    end.
Proof.
  unfold seedOf. revert m.
  induction screenViews as [|s l IH]; intros m; simpl; [reflexivity|].
  rewrite IH, find_snoc.
  destruct (find _ (rev l)); [reflexivity|].
  rewrite get_addScreen.
  destruct (isFeatureScreen s && String.eqb (screenClass s) k); reflexivity.
Qed.

Lemma get_fold_addEvent (events : list AnalyticsEvent) m k :
  OMap.get k (fold_left addEvent events m)
  = fold_left (fun o e => Some (afterEvent o e)) (eventsNamed k events) (OMap.get k m).
Proof.
  unfold eventsNamed. revert m.
  induction events as [|e l IH]; intros m; simpl; [reflexivity|].
  rewrite IH, get_addEvent.
  destruct (String.eqb (eventName e) k); reflexivity.
Qed.

(** Merging a run of events into an entry. *)
Lemma merge_run (es : list AnalyticsEvent) (f0 : FeatureUsageDetail) :
  exists f,
    fold_left (fun o e => Some (afterEvent o e)) es (Some f0) = Some f
    /\ featureName f = featureName f0
    /\ featureType f = featureType f0
    /\ engagementTime f = engagementTime f0
    /\ relatedScreens f = relatedScreens f0
    /\ usageCount f = usageAfter (usageCount f0) es
    /\ uniqueUsers f = usersAfter (uniqueUsers f0) es
    /\ avgUsagePerUser f
       = averageAfter (avgUsagePerUser f0) (usageCount f0) (uniqueUsers f0) es.
Proof.
  induction es as [|e es IH] using rev_ind.
  - exists f0. repeat split.
  - destruct IH as (f & Hf & Hn & Ht & He & Hr & Hu & Hs & _).
    exists (mergeEvent f e). rewrite fold_left_app, Hf. simpl.
    unfold usageAfter, usersAfter, averageAfter in *.
    rewrite !map_app, !fold_left_app. simpl.
    rewrite <- Hu, <- Hs.
    repeat split; try assumption.
    destruct (es ++ [e]) eqn:Hes; [destruct es; discriminate|].
    rewrite <- Hes. unfold usageAfter, usersAfter.
    rewrite !map_app, !fold_left_app. simpl.
    rewrite <- Hu, <- Hs. reflexivity.
Qed.

End DetailedByKey.

Section DetailedEntries.
Import Repository.
Variables (events : list AnalyticsEvent) (screenViews : list ScreenView).

Local Abbreviation folded := (foldedFeatures events screenViews).

Lemma folded_nodup : NoDup (OMap.keys folded).
Proof. apply fold_addEvent_nodup, fold_addScreen_nodup. constructor. Qed.

Lemma featureUsage_in (f : FeatureUsageDetail) :
  In f (featureUsage events screenViews)
  <-> exists k f0, OMap.get k folded = Some f0
                   /\ attachRelated screenViews (k, f0) = (k, f).
Proof.
  unfold featureUsage, mergedFeatures. fold (foldedFeatures events screenViews). split.
  - intros Hin. apply (Permutation_in _ (sortBy_perm _ _)) in Hin.
    apply in_map_iff in Hin. destruct Hin as ([k f'] & Hf & Hin). simpl in Hf. subst f'.
    apply in_map_iff in Hin. destruct Hin as ([k0 f0] & Heq & Hin).
    pose proof (attachRelated_name screenViews (k0, f0)) as [Hk _].
    rewrite Heq in Hk. simpl in Hk. subst k0.
    exists k, f0. split; [|exact Heq].
    apply in_get; [apply folded_nodup|exact Hin].
  - intros (k & f0 & Hget & Hatt).
    apply (Permutation_in _ (Permutation_sym (sortBy_perm _ _))).
    apply in_map_iff. exists (k, f). split; [reflexivity|].
    apply in_map_iff. exists (k, f0). split; [exact Hatt|].
    apply get_some_in. exact Hget.
Qed.

Lemma seedOf_some (k : string) (s : ScreenView) :
  seedOf screenViews k = Some s ->
  In s screenViews /\ isFeatureScreen s = true /\ screenClass s = k.
Proof.
  unfold seedOf. intros H. apply find_some in H. destruct H as [Hin Ht].
  apply andb_true_iff in Ht. destruct Ht as [Hfs Hk].
  apply String.eqb_eq in Hk. apply in_rev in Hin. auto.
Qed.

Lemma seedOf_none (k : string) (s : ScreenView) :
  seedOf screenViews k = None ->
  In s screenViews -> isFeatureScreen s = true -> screenClass s <> k.
Proof.
  unfold seedOf. intros H Hin Hfs Hk.
  pose proof (find_none _ _ H s (proj1 (in_rev _ _) Hin)) as Hf.
  simpl in Hf. rewrite Hfs, Hk, String.eqb_refl in Hf. discriminate.
Qed.

Lemma eventsNamed_in (k : string) (e : AnalyticsEvent) :
  In e (eventsNamed k events) <-> In e events /\ eventName e = k.
Proof. unfold eventsNamed. rewrite filter_In, String.eqb_eq. reflexivity. Qed.

(** The entry under [k] before the related screens are attached. *)
Lemma folded_get (k : string) :
  OMap.get k folded
  = fold_left (fun o e => Some (afterEvent o e)) (eventsNamed k events)
              (option_map screenFeature (seedOf screenViews k)).
Proof.
  unfold foldedFeatures. rewrite get_fold_addEvent, get_fold_addScreen.
  destruct (seedOf screenViews k); reflexivity.
Qed.

Lemma attachRelated_fields (k : string) (f0 f : FeatureUsageDetail) :
  attachRelated screenViews (k, f0) = (k, f) ->
  featureName f = featureName f0 /\ featureType f = featureType f0
  /\ usageCount f = usageCount f0 /\ uniqueUsers f = uniqueUsers f0
  /\ avgUsagePerUser f = avgUsagePerUser f0
  /\ engagementTime f = engagementTime f0.
Proof.
  unfold attachRelated.
  destruct (featureType f0) eqn:Ht; try (intros H; injection H as <-; auto 10);
    destruct (0 <? _); intros H; injection H as <-; simpl; auto 10.
Qed.

(** X7.  Every entry of the detailed feature list is accounted for by the
    inputs.  If a screen seeds its name (the last screen of that class,
    sentinels and empty classes apart), the entry has type [screen], the
    screen's engagement time, the screen's views plus the counts of all
    events of that name as usageCount and the largest of the screen's active
    users and those events' users as uniqueUsers.  Otherwise it comes from
    the events of that name alone: the first gives the start values and the
    type by name, the others are merged.  The average is the source's own
    value until an event is merged, then usageCount / (uniqueUsers || 1). *)
Theorem feature_entry_totals (f : FeatureUsageDetail) :
  In f (featureUsage events screenViews) ->
  match seedOf screenViews (featureName f) with
  | Some s =>
      let es := eventsNamed (featureName f) events in
      featureType f = screen
      /\ engagementTime f = Some (avgEngagementTime s)
      /\ usageCount f = usageAfter (views s) es
      /\ uniqueUsers f = usersAfter (activeUsers s) es
      /\ avgUsagePerUser f
         = averageAfter (viewsPerActiveUser s) (views s) (activeUsers s) es
  | None =>
      exists e rest,
        eventsNamed (featureName f) events = e :: rest
        /\ featureType f = featureTypeOf (featureName f)
        /\ engagementTime f = None
        /\ usageCount f = usageAfter (eventCount e) rest
        /\ uniqueUsers f = usersAfter (totalUsers e) rest
        /\ avgUsagePerUser f
           = averageAfter (eventCountPerUser e) (eventCount e) (totalUsers e) rest
  end.
Proof.
  intros Hin. apply featureUsage_in in Hin. destruct Hin as (k & f0 & Hget & Hatt).
  destruct (attachRelated_fields _ _ _ Hatt) as (Hn & Ht & Hu & Hs & Ha & He).
  rewrite folded_get in Hget.
  assert (Hk : featureName f0 = k /\
               match seedOf screenViews k with
               | Some s =>
                   featureType f0 = screen
                   /\ engagementTime f0 = Some (avgEngagementTime s)
                   /\ usageCount f0 = usageAfter (views s) (eventsNamed k events)
                   /\ uniqueUsers f0 = usersAfter (activeUsers s) (eventsNamed k events)
                   /\ avgUsagePerUser f0
                      = averageAfter (viewsPerActiveUser s) (views s) (activeUsers s)
                                     (eventsNamed k events)
               | None =>
                   exists e rest,
                     eventsNamed k events = e :: rest
                     /\ featureType f0 = featureTypeOf k
                     /\ engagementTime f0 = None
                     /\ usageCount f0 = usageAfter (eventCount e) rest
                     /\ uniqueUsers f0 = usersAfter (totalUsers e) rest
                     /\ avgUsagePerUser f0
                        = averageAfter (eventCountPerUser e) (eventCount e)
                                       (totalUsers e) rest
               end).
  { destruct (seedOf screenViews k) as [s|] eqn:Hseed; simpl in Hget.
    - destruct (merge_run (eventsNamed k events) (screenFeature s))
        as (f1 & Hf1 & H1n & H1t & H1e & _ & H1u & H1s & H1a).
      rewrite Hf1 in Hget. injection Hget as <-.
      apply seedOf_some in Hseed. destruct Hseed as (_ & _ & Hcls).
      split; [rewrite H1n; exact Hcls|]. auto.
    - destruct (eventsNamed k events) as [|e rest] eqn:Hes; [discriminate|].
      simpl in Hget.
      destruct (merge_run rest (eventFeature e))
        as (f1 & Hf1 & H1n & H1t & H1e & _ & H1u & H1s & H1a).
      rewrite Hf1 in Hget. injection Hget as <-.
      assert (Hname : eventName e = k).
      { apply (proj1 (eventsNamed_in k e)). rewrite Hes. left. reflexivity. }
      split; [rewrite H1n; exact Hname|].
      exists e, rest. rewrite H1t. simpl. rewrite Hname. auto 10. }
  destruct Hk as [Hname Hcase].
  rewrite Hn, Hname, Ht, Hu, Hs, Ha, He. exact Hcase.
Qed.

(** X8.  The detailed feature list has one entry per name, and its names are
    exactly the classes of the screens that pass the seeding test together
    with the names of the events. *)
Theorem feature_names (k : string) :
  NoDup (map featureName (featureUsage events screenViews))
  /\ ((exists f, In f (featureUsage events screenViews) /\ featureName f = k)
      <-> fromScreen screenViews k \/ fromEvent events k).
Proof.
  split.
  - assert (Hkeys : map featureName (OMap.values (mergedFeatures events screenViews))
                    = OMap.keys (mergedFeatures events screenViews)).
    { unfold OMap.values, OMap.keys. rewrite map_map. apply map_ext_in.
      intros [k' f'] Hin.
      exact (proj1 (mergedFeatures_inv events screenViews k' f' Hin)). }
    unfold featureUsage.
    apply (Permutation_NoDup
             (l := map featureName (OMap.values (mergedFeatures events screenViews)))).
    + apply Permutation_map. symmetry. apply sortBy_perm.
    + rewrite Hkeys. unfold mergedFeatures, OMap.keys. rewrite map_map.
      fold (foldedFeatures events screenViews).
      replace (map (fun x => fst (attachRelated screenViews x)) folded)
        with (OMap.keys folded); [apply folded_nodup|].
      unfold OMap.keys. apply map_ext. intros x.
      symmetry. apply attachRelated_name.
  - split.
    + intros (f & Hin & Hname).
      unfold featureUsage in Hin.
      apply (Permutation_in _ (sortBy_perm _ _)) in Hin.
      apply in_map_iff in Hin. destruct Hin as ([k' f'] & Hf & Hin).
      simpl in Hf. subst f'.
      destruct (mergedFeatures_inv events screenViews k' f Hin) as [Hn Horigin].
      rewrite <- Hname, Hn. exact Horigin.
    + intros Horigin.
      assert (Hsome : exists f0, OMap.get k folded = Some f0 /\ featureName f0 = k).
      { rewrite folded_get.
        destruct (seedOf screenViews k) as [s|] eqn:Hseed; simpl.
        - destruct (merge_run (eventsNamed k events) (screenFeature s))
            as (f1 & Hf1 & H1n & _).
          exists f1. split; [exact Hf1|].
          rewrite H1n. apply seedOf_some in Hseed. tauto.
        - destruct Horigin as [(s & Hs & Hfs & Hcls)|(e & He & Hname)].
          + exfalso. exact (seedOf_none k s Hseed Hs Hfs Hcls).
          + destruct (eventsNamed k events) as [|e0 rest] eqn:Hes.
            * exfalso. assert (Hin : In e (eventsNamed k events))
                by (apply eventsNamed_in; auto).
              rewrite Hes in Hin. destruct Hin.
            * simpl. destruct (merge_run rest (eventFeature e0))
                as (f1 & Hf1 & H1n & _).
              exists f1. split; [exact Hf1|]. rewrite H1n. simpl.
              apply (proj1 (eventsNamed_in k e0)). rewrite Hes. left. reflexivity. }
      destruct Hsome as (f0 & Hget & Hname).
      exists (snd (attachRelated screenViews (k, f0))). split.
      * apply featureUsage_in. exists k, f0. split; [exact Hget|].
        destruct (attachRelated screenViews (k, f0)) as [k' f'] eqn:Hatt.
        pose proof (attachRelated_name screenViews (k, f0)) as [Hk _].
        rewrite Hatt in Hk. simpl in Hk. subst k'. reflexivity.
      * pose proof (attachRelated_name screenViews (k, f0)) as [_ Hn].
        rewrite Hn. exact Hname.
Qed.

End DetailedEntries.

Section RelatedScreens.
Import Repository.

Lemma dedupFrom_in (seen l : list string) (x : string) :
  In x (dedupFrom seen l) <-> In x l /\ ~ In x seen.
Proof.
  revert seen. induction l as [|y l IH]; intros seen; simpl; [tauto|].
  destruct (existsb (String.eqb y) seen) eqn:Hy.
  - apply existsb_exists in Hy. destruct Hy as (z & Hz & Heq).
    apply String.eqb_eq in Heq. subst z.
    rewrite IH. split; [tauto|].
    intros [[<-|Hin] Hns]; [contradiction|tauto].
  - assert (Hny : ~ In y seen).
    { intros Hin. rewrite <- not_true_iff_false in Hy. apply Hy.
      apply existsb_exists. exists y. split; [exact Hin|apply String.eqb_refl]. }
    simpl. rewrite IH. simpl. split.
    + intros [<-|[Hin Hns]]; [tauto|]. split; [tauto|]. intros Hs. apply Hns. tauto.
    + intros [[<-|Hin] Hns]; [tauto|].
      destruct (String.eqb_spec y x) as [<-|Hne]; [tauto|].
      right. split; [exact Hin|]. intros [Heq|Hs]; [congruence|tauto].
Qed.

Lemma dedupFrom_nodup (seen l : list string) : NoDup (dedupFrom seen l).
Proof.
  revert seen. induction l as [|y l IH]; intros seen; simpl; [constructor|].
  destruct (existsb (String.eqb y) seen); [apply IH|].
  constructor; [|apply IH].
  rewrite dedupFrom_in. simpl. tauto.
Qed.

Lemma dedup_in (l : list string) (x : string) : In x (dedup l) <-> In x l.
Proof. unfold dedup. rewrite dedupFrom_in. simpl. tauto. Qed.

Lemma relatedTo_in (screenViews : list ScreenView) (name r : string) :
  In r (relatedTo screenViews name)
  <-> exists s, In s screenViews /\ screenClass s = r /\ isRelated name s = true.
Proof.
  unfold relatedTo. rewrite in_map_iff. split.
  - intros (s & Hr & Hin). apply filter_In in Hin. exists s. tauto.
  - intros (s & Hin & Hr & Hrel). exists s. split; [exact Hr|].
    apply filter_In. tauto.
Qed.

(** X9.  Related screens are attached to [menu] and [action] entries only.
    When attached, the list is not empty, has no duplicates and holds exactly
    the classes of the screens that share a keyword with the feature name;
    an entry without related screens is of another type or shares a keyword
    with no screen. *)
Theorem related_screens (events : list AnalyticsEvent) (screenViews : list ScreenView)
        (f : FeatureUsageDetail) :
  In f (featureUsage events screenViews) ->
  match relatedScreens f with
  | Some rs =>
      isMenuOrAction (featureType f) = true
      /\ rs <> [] /\ NoDup rs
      /\ forall r, In r rs
                   <-> exists s, In s screenViews /\ screenClass s = r
                                 /\ isRelated (featureName f) s = true
  | None =>
      isMenuOrAction (featureType f) = false
      \/ forall s, In s screenViews -> isRelated (featureName f) s = false
  end.
Proof.
  intros Hin. apply featureUsage_in in Hin. destruct Hin as (k & f0 & Hget & Hatt).
  assert (Hf0 : featureName f0 = k /\ relatedScreens f0 = None).
  { rewrite folded_get in Hget.
    destruct (seedOf screenViews k) as [s|] eqn:Hseed; simpl in Hget.
    - destruct (merge_run (eventsNamed k events) (screenFeature s))
        as (f1 & Hf1 & H1n & _ & _ & H1r & _).
      rewrite Hf1 in Hget. injection Hget as <-.
      apply seedOf_some in Hseed. split; [rewrite H1n; tauto|exact H1r].
    - destruct (eventsNamed k events) as [|e rest] eqn:Hes; [discriminate|].
      simpl in Hget.
      destruct (merge_run rest (eventFeature e))
        as (f1 & Hf1 & H1n & _ & _ & H1r & _).
      rewrite Hf1 in Hget. injection Hget as <-.
      split; [|exact H1r]. rewrite H1n. simpl.
      apply (proj1 (eventsNamed_in events k e)). rewrite Hes. left. reflexivity. }
  destruct Hf0 as [Hname Hnone].
  unfold attachRelated in Hatt.
  fold (relatedTo screenViews k) in Hatt.
  assert (Hcase :
            (isMenuOrAction (featureType f0) = true
             /\ relatedTo screenViews k <> []
             /\ f = {| featureName := featureName f0;
                       featureType := featureType f0;
                       usageCount := usageCount f0;
                       uniqueUsers := uniqueUsers f0;
                       avgUsagePerUser := avgUsagePerUser f0;
                       engagementTime := engagementTime f0;
                       relatedScreens := Some (dedup (relatedTo screenViews k)) |})
            \/ ((isMenuOrAction (featureType f0) = false
                 \/ relatedTo screenViews k = [])
                /\ f = f0)).
  { destruct (featureType f0) eqn:Ht; simpl;
      try (right; split; [left; reflexivity|congruence]);
      (destruct (relatedTo screenViews k) as [|r0 rs0] eqn:Hrel; simpl in Hatt;
       [right; split; [right; reflexivity|congruence]
       |left; split; [reflexivity|split; [discriminate|congruence]]]). }
  destruct Hcase as [(Hty & Hne & ->)|([Hty|Hempty] & ->)]; simpl.
  - rewrite Hname. split; [exact Hty|]. split; [|split].
    + intros Hd. destruct (relatedTo screenViews k) as [|r0 rs0] eqn:Hrel;
        [congruence|].
      assert (Hin : In r0 (dedup (r0 :: rs0))) by (apply dedup_in; left; reflexivity).
      rewrite Hd in Hin. destruct Hin.
    + apply dedupFrom_nodup.
    + intros r. rewrite dedup_in. apply relatedTo_in.
  - rewrite Hnone. left. exact Hty.
  - rewrite Hnone, Hname. right. intros s Hs.
    destruct (isRelated k s) eqn:Hrel; [|reflexivity].
    assert (Hin : In (screenClass s) (relatedTo screenViews k))
      by (apply relatedTo_in; exists s; auto).
    rewrite Hempty in Hin. destruct Hin.
Qed.

End RelatedScreens.

(* ================================================================== *)
(** * The summary map against the detailed map *)
(* ================================================================== *)

Section SummaryAgainstDetail.
Variables (events : list AnalyticsEvent) (screenViews : list ScreenView).

Lemma stats_get_addScreen (m : OMap.omap Service.FeatureUsageStats) (s : ScreenView)
      (k : string) :
  OMap.get k (Service.addScreen m s)
  = if Service.isFeatureScreen s && String.eqb (screenClass s) k
    then Some (Service.screenFeature s) else OMap.get k m.
Proof.
  unfold Service.addScreen. destruct (Service.isFeatureScreen s); simpl; [|reflexivity].
  apply get_set.
Qed.

Lemma stats_get_addEvent (m : OMap.omap Service.FeatureUsageStats) (e : AnalyticsEvent)
      (k : string) :
  OMap.get k (Service.addEvent m e)
  = if negb (isSystemEvent (eventName e)) && String.eqb (eventName e) k
    then Some (afterEventStats (OMap.get k m) e) else OMap.get k m.
Proof.
  unfold Service.addEvent, isSystemEvent.
  destruct (existsb (String.eqb (eventName e)) Service.systemEvents); simpl;
    [reflexivity|].
  destruct (String.eqb_spec (eventName e) k) as [<-|Hne].
  - destruct (OMap.get (eventName e) m); simpl; apply get_set_same.
  - destruct (OMap.get (eventName e) m); simpl; apply get_set_other; exact Hne.
Qed.

Lemma stats_addScreen_nodup (m : OMap.omap Service.FeatureUsageStats) (s : ScreenView) :
  NoDup (OMap.keys m) -> NoDup (OMap.keys (Service.addScreen m s)).
Proof.
  unfold Service.addScreen. destruct (Service.isFeatureScreen s);
    [apply keys_set_nodup|auto].
Qed.

Lemma stats_addEvent_nodup (m : OMap.omap Service.FeatureUsageStats) (e : AnalyticsEvent) :
  NoDup (OMap.keys m) -> NoDup (OMap.keys (Service.addEvent m e)).
Proof.
  unfold Service.addEvent.
  destruct (negb _); [|auto].
  destruct (OMap.get (eventName e) m); apply keys_set_nodup.
Qed.

Lemma stats_merged_nodup :
  NoDup (OMap.keys (Service.mergedFeatures events screenViews)).
Proof.
  unfold Service.mergedFeatures.
  apply (fold_left_inv Service.addEvent (fun m => NoDup (OMap.keys m))).
  - intros e m _. apply stats_addEvent_nodup.
  - apply (fold_left_inv Service.addScreen (fun m => NoDup (OMap.keys m))).
    + intros s m _. apply stats_addScreen_nodup.
    + constructor.
Qed.

Lemma sameEntry_afterEvent (o : option Service.FeatureUsageStats)
      (o' : option Repository.FeatureUsageDetail) (e : AnalyticsEvent) :
  sameEntry o o' -> sameFigures (afterEventStats o e) (afterEvent o' e).
Proof.
  destruct o as [f|], o' as [g|]; simpl; try tauto.
  - intros (Hn & Hu & Hs & Ha). unfold sameFigures. simpl.
    rewrite Hu, Hs. repeat split; auto.
  - intros _. unfold sameFigures. simpl. repeat split; reflexivity.
Qed.

(** Under a name that is no system event the two maps evolve alike. *)
Lemma maps_agree (k : string) :
  isSystemEvent k = false ->
  sameEntry (OMap.get k (Service.mergedFeatures events screenViews))
            (OMap.get k (foldedFeatures events screenViews)).
Proof.
  intros Hk. unfold Service.mergedFeatures, foldedFeatures.
  assert (Hscr : sameEntry
                   (OMap.get k (fold_left Service.addScreen screenViews OMap.empty))
                   (OMap.get k (fold_left Repository.addScreen screenViews OMap.empty))).
  { assert (H0 : forall (a : OMap.omap Service.FeatureUsageStats)
                        (b : OMap.omap Repository.FeatureUsageDetail),
               sameEntry (OMap.get k a) (OMap.get k b) ->
               sameEntry (OMap.get k (fold_left Service.addScreen screenViews a))
                         (OMap.get k (fold_left Repository.addScreen screenViews b))).
    { induction screenViews as [|s l IH]; intros a b Hab; simpl; [exact Hab|].
      apply IH. rewrite stats_get_addScreen, get_addScreen.
      change (Service.isFeatureScreen s) with (Repository.isFeatureScreen s).
      destruct (Repository.isFeatureScreen s && String.eqb (screenClass s) k);
        [repeat split|exact Hab]. }
    apply H0. exact I. }
  revert Hscr.
  generalize (fold_left Service.addScreen screenViews OMap.empty)
             (fold_left Repository.addScreen screenViews OMap.empty).
  induction events as [|e l IH]; intros a b Hab; simpl; [exact Hab|].
  apply IH. rewrite stats_get_addEvent, get_addEvent.
  destruct (String.eqb_spec (eventName e) k) as [Heq|Hne].
  - rewrite Heq, Hk. simpl. apply sameEntry_afterEvent. exact Hab.
  - rewrite andb_false_r. exact Hab.
Qed.

End SummaryAgainstDetail.

(** X10.  The summary view and the detailed view agree: every entry of
    topFeatures whose name is not one of the four system events has an entry
    of the same name in the detailed feature list, with the same usageCount,
    uniqueUsers and avgUsagePerUser. *)
Theorem topFeatures_agree_with_details (events : list AnalyticsEvent)
        (screenViews : list ScreenView) (f : Service.FeatureUsageStats) :
  In f (Service.analyzeFeatureUsage events screenViews) ->
  isSystemEvent (Service.featureName f) = false ->
  exists g,
    In g (Repository.featureUsage events screenViews)
    /\ Repository.featureName g = Service.featureName f
    /\ Repository.usageCount g = Service.usageCount f
    /\ Repository.uniqueUsers g = Service.uniqueUsers f
    /\ Repository.avgUsagePerUser g = Service.avgUsagePerUser f.
Proof.
  intros Hin Hsys. unfold Service.analyzeFeatureUsage in Hin.
  apply in_firstn in Hin.
  apply (Permutation_in _ (sortBy_perm _ _)) in Hin.
  apply in_map_iff in Hin. destruct Hin as ([k f'] & Hf & Hin). simpl in Hf. subst f'.
  destruct (summary_mergedFeatures_inv events screenViews k f Hin) as [Hname _].
  apply (in_get _ _ _ (stats_merged_nodup events screenViews)) in Hin.
  rewrite Hname in Hsys.
  pose proof (maps_agree events screenViews k Hsys) as Hsame.
  rewrite Hin in Hsame.
  destruct (OMap.get k (foldedFeatures events screenViews)) as [g0|] eqn:Hget;
    [|destruct Hsame].
  destruct Hsame as (Hn & Hu & Hs & Ha).
  destruct (Repository.attachRelated screenViews (k, g0)) as [k' g] eqn:Hatt.
  pose proof (attachRelated_name screenViews (k, g0)) as [Hk _].
  rewrite Hatt in Hk. simpl in Hk. subst k'.
  destruct (attachRelated_fields screenViews _ _ _ Hatt) as (Gn & _ & Gu & Gs & Ga & _).
  exists g. split.
  - apply featureUsage_in. exists k, g0. auto.
  - rewrite Gn, Gu, Gs, Ga. auto.
Qed.

Lemma topFeatures_agree_with_details_witness :
  exists g,
    In g (Repository.featureUsage [firstOpenEvent; homeEvent; alphaEvent] [homeScreen])
    /\ Repository.featureName g = "HomeScreen"
    /\ Repository.usageCount g = of_Z 540.
Proof.
  destruct (topFeatures_agree_with_details
              [firstOpenEvent; homeEvent; alphaEvent] [homeScreen]
              (Service.mergeEvent (Service.screenFeature homeScreen) homeEvent))
    as (g & Hin & Hn & Hu & _).
  - vm_compute. auto.
  - reflexivity.
  - exists g. repeat split; assumption.
Defined.

Lemma feature_entry_totals_witness :
  Repository.usageCount
    (Repository.mergeEvent (Repository.screenFeature homeScreen) homeEvent)
  = usageAfter (views homeScreen) [homeEvent].
Proof.
  pose proof (feature_entry_totals [alphaEvent; homeEvent] [homeScreen]
                (Repository.mergeEvent (Repository.screenFeature homeScreen) homeEvent))
    as H.
  assert (Hin : In (Repository.mergeEvent (Repository.screenFeature homeScreen) homeEvent)
                   (Repository.featureUsage [alphaEvent; homeEvent] [homeScreen]))
    by (vm_compute; auto).
  specialize (H Hin).
  change (seedOf [homeScreen]
            (Repository.featureName
               (Repository.mergeEvent (Repository.screenFeature homeScreen) homeEvent)))
    with (Some homeScreen) in H.
  destruct H as (_ & _ & Hu & _). exact Hu.
Defined.

Lemma related_screens_witness :
  Repository.relatedScreens menuDocumentFeature = Some ["DocumentViewController"]
  /\ NoDup ["DocumentViewController"]
  /\ Repository.isRelated "menu_document" documentScreen = true.
Proof.
  pose proof (related_screens [menuDocumentEvent] [homeScreen; documentScreen]
                menuDocumentFeature) as H.
  assert (Hin : In menuDocumentFeature
                   (Repository.featureUsage [menuDocumentEvent]
                                            [homeScreen; documentScreen]))
    by (vm_compute; auto).
  specialize (H Hin).
  change (Repository.relatedScreens menuDocumentFeature)
    with (Some ["DocumentViewController"]) in H.
  destruct H as (_ & _ & Hnd & _).
  split; [reflexivity|]. split; [exact Hnd|reflexivity].
Defined.

(* ================================================================== *)
(** * Sorted views and totals *)
(* ================================================================== *)

Section TopLists.
Context {A : Type} (key : A -> number).

Lemma descending_asym (a b : A) :
  ServiceViews.descending key a b = true -> ServiceViews.descending key b a = false.
Proof. apply positive_sub_asym. Qed.

Lemma descending_trans (a b c : A) :
  isNaN (key a) = false -> isNaN (key b) = false -> isNaN (key c) = false ->
  mayPrecede (ServiceViews.descending key) a b ->
  mayPrecede (ServiceViews.descending key) b c ->
  mayPrecede (ServiceViews.descending key) a c.
Proof. apply positive_sub_trans. Qed.

Lemma descending_sorted (l : list A) :
  Forall (fun x => isNaN (key x) = false) l ->
  StronglySorted (mayPrecede (ServiceViews.descending key))
                 (sortBy (ServiceViews.descending key) l).
Proof.
  apply (sortBy_sorted (ServiceViews.descending key)
                       (fun x => isNaN (key x) = false)).
  - intros a b _ _. apply descending_asym.
  - apply descending_trans.
Qed.



End TopLists.

Section RepositoryViewTheorems.
Import RepositoryViews.

Lemma isNamedScreen_not_sentinel (s : ScreenView) :
  isNamedScreen s = true ->
  truthy (screenClass s) = true /\ isSentinel (screenClass s) = false.
Proof.
  unfold isNamedScreen, isSentinel. intros H.
  apply andb_true_iff in H. destruct H as [H H2].
  apply andb_true_iff in H. destruct H as [H0 H1].
  apply negb_true_iff in H1, H2. rewrite H1, H2. auto.
Qed.

(** X11.  The screen-view breakdown of the repository holds one row for
    every screen whose class is neither empty nor a sentinel, and no other
    row; when every view count is a number, each row has at least as many
    views as every later row. *)
Theorem screenViewBreakdown_spec (screenViews : list ScreenView)
        (events : list AnalyticsEvent) :
  Permutation (screenViewBreakdown (screenViewAnalysis screenViews events))
              (map toBreakdown (filter isNamedScreen screenViews))
  /\ Forall (fun row => truthy (sb_screenClass row) = true
                        /\ isSentinel (sb_screenClass row) = false)
            (screenViewBreakdown (screenViewAnalysis screenViews events))
  /\ (Forall (fun s => isNaN (views s) = false) screenViews ->
      StronglySorted (mayPrecede byViews)
                     (screenViewBreakdown (screenViewAnalysis screenViews events))).
Proof.
  unfold screenViewAnalysis. simpl. split; [apply sortBy_perm|]. split.
  - rewrite sortBy_perm. apply Forall_forall. intros row Hrow.
    apply in_map_iff in Hrow. destruct Hrow as (s & <- & Hs).
    apply filter_In in Hs. simpl. apply isNamedScreen_not_sentinel. tauto.
  - intros Hnum.
    apply (descending_sorted sb_views).
    apply Forall_forall. intros row Hrow.
    apply in_map_iff in Hrow. destruct Hrow as (s & <- & Hs).
    apply filter_In in Hs. rewrite Forall_forall in Hnum. simpl. apply Hnum. tauto.
Qed.

Lemma positive_not_nan (a : number) : positive a = true -> isNaN a = false.
Proof. destruct a; simpl; congruence. Qed.

(** X12.  The engagement list of the repository holds exactly the screens
    with a named class and a positive event count; it is sorted by
    descending engagements whatever the input, since rows whose count is
    zero, negative or NaN are dropped before the sort. *)
Theorem engagementByScreen_spec (events : list AnalyticsEvent)
        (screenViews : list ScreenView) :
  (forall row,
      In row (uea_engagementByScreen (userEngagementAnalysis events screenViews))
      <-> exists s, In s screenViews /\ isNamedScreen s = true
                    /\ positive (sv_eventCount s) = true /\ row = toEngagement s)
  /\ StronglySorted (mayPrecede byEngagements)
                    (uea_engagementByScreen (userEngagementAnalysis events screenViews)).
Proof.
  unfold userEngagementAnalysis. simpl. split.
  - intros row. split.
    + intros Hin. apply (Permutation_in _ (sortBy_perm _ _)) in Hin.
      apply filter_In in Hin. destruct Hin as [Hin Hpos].
      apply in_map_iff in Hin. destruct Hin as (s & <- & Hs).
      apply filter_In in Hs. exists s. simpl in Hpos. tauto.
    + intros (s & Hs & Hn & Hpos & ->).
      apply (Permutation_in _ (Permutation_sym (sortBy_perm _ _))).
      apply filter_In. split; [|exact Hpos].
      apply in_map. apply filter_In. tauto.
  - apply (descending_sorted engagements).
    apply Forall_forall. intros row Hrow.
    apply filter_In in Hrow. apply positive_not_nan. tauto.
Qed.



End RepositoryViewTheorems.

Section ServiceViewTheorems.
Import ServiceViews.

Lemma filter_partition_perm {A : Type} (p : A -> bool) (l : list A) :
  Permutation (filter (fun x => negb (p x)) l ++ filter p l) l.
Proof.
  induction l as [|x l IH]; simpl; [constructor|].
  destruct (p x); simpl.
  - symmetry. apply Permutation_cons_app. symmetry. exact IH.
  - constructor. exact IH.
Qed.

Lemma system_name_type (name : string) :
  existsb (String.eqb name) systemEvents = true
  <-> Repository.featureTypeOf name = Repository.system.
Proof.
  split.
  - intros H. apply existsb_exists in H. destruct H as (n & Hin & Heq).
    apply String.eqb_eq in Heq. subst n.
    simpl in Hin.
    repeat (destruct Hin as [<-|Hin]; [reflexivity|]). destruct Hin.
  - unfold Repository.featureTypeOf.
    destruct (startsWith name "menu_"); [discriminate|].
    destruct (_ || _); [discriminate|].
    change Repository.systemNames with systemEvents.
    destruct (existsb (String.eqb name) systemEvents); [reflexivity|discriminate].
Qed.

(** X14.  The event analysis splits the events in two: every event is in
    exactly one of customEvents and systemEvents, each list keeps the order
    of the input, and eventsByUsers holds all events again.  The system list
    holds exactly the events that the detailed aggregator types [system]. *)
Theorem eventAnalysis_partition (events : list AnalyticsEvent) :
  let ea := eventAnalysis events in
  Permutation (customEvents ea ++ ea_systemEvents ea) events
  /\ (forall e, In e (customEvents ea) -> In e (ea_systemEvents ea) -> False)
  /\ (forall e, In e (ea_systemEvents ea)
                <-> In e events
                    /\ Repository.featureTypeOf (eventName e) = Repository.system)
  /\ Permutation (eventsByUsers ea) events.
Proof.
  cbv zeta. unfold eventAnalysis.
  cbn [customEvents ea_systemEvents eventsByUsers].
  split; [|split; [|split]].
  - apply (filter_partition_perm
             (fun e => existsb (String.eqb (eventName e)) systemEvents)).
  - intros e H1 H2. apply filter_In in H1, H2.
    destruct H1 as [_ H1], H2 as [_ H2]. rewrite H2 in H1. discriminate.
  - intros e. rewrite filter_In. cbv beta. rewrite system_name_type. reflexivity.
  - apply sortBy_perm.
Qed.





Lemma get_fold_engagement (screenViews : list ScreenView) (m : OMap.omap number)
      (k : string) :
  OMap.get k (fold_left (fun m sv => OMap.set (screenClass sv) (avgEngagementTime sv) m)
                        screenViews m)
  = match lastOfClass screenViews k with
    | Some s => Some (avgEngagementTime s)
    | None => OMap.get k m
    end.
Proof.
  unfold lastOfClass. revert m.
  induction screenViews as [|s l IH]; intros m; simpl; [reflexivity|].
  rewrite IH, find_snoc.
  destruct (find _ (rev l)); [reflexivity|].
  rewrite get_set. destruct (String.eqb (screenClass s) k); reflexivity.
Qed.

(** X17.  The engagement-by-screen map has one key per screen class met,
    sentinels and the empty class included, and a class maps to the
    engagement time of the last screen of that class; a class met nowhere is
    no key. *)
Theorem engagementByScreen_lookup (screenViews : list ScreenView)
        (events : list AnalyticsEvent) (k : string) :
  NoDup (OMap.keys (ea_engagementByScreen (analyzeEngagement screenViews events)))
  /\ OMap.get k (ea_engagementByScreen (analyzeEngagement screenViews events))
     = option_map avgEngagementTime (lastOfClass screenViews k)
  /\ (In k (OMap.keys (ea_engagementByScreen (analyzeEngagement screenViews events)))
      <-> exists s, In s screenViews /\ screenClass s = k).
Proof.
  unfold analyzeEngagement. simpl.
  assert (Hget : forall k', OMap.get k' (fold_left
                   (fun m sv => OMap.set (screenClass sv) (avgEngagementTime sv) m)
                   screenViews OMap.empty)
                 = option_map avgEngagementTime (lastOfClass screenViews k')).
  { intros k'. rewrite get_fold_engagement.
    destruct (lastOfClass screenViews k'); reflexivity. }
  split; [|split].
  - apply (fold_left_inv _ (fun m : OMap.omap number => NoDup (OMap.keys m))).
    + intros s m _. apply keys_set_nodup.
    + constructor.
  - apply Hget.
  - split.
    + intros Hin.
      destruct (lastOfClass screenViews k) as [s|] eqn:Hlast.
      * unfold lastOfClass in Hlast. apply find_some in Hlast.
        destruct Hlast as [Hs Hk]. apply String.eqb_eq in Hk.
        exists s. split; [apply in_rev; exact Hs|exact Hk].
      * exfalso. revert Hin. apply get_none_keys. rewrite Hget, Hlast. reflexivity.
    + intros (s & Hs & Hk).
      destruct (OMap.get k (fold_left
                   (fun m sv => OMap.set (screenClass sv) (avgEngagementTime sv) m)
                   screenViews OMap.empty)) as [v|] eqn:Hg.
      * apply get_some_in in Hg. change k with (fst (k, v)). apply in_map. exact Hg.
      * rewrite Hget in Hg. unfold lastOfClass in Hg.
        destruct (find _ (rev screenViews)) as [s'|] eqn:Hf; [discriminate|].
        pose proof (find_none _ _ Hf s (proj1 (in_rev _ _) Hs)) as Hc.
        simpl in Hc. rewrite Hk, String.eqb_refl in Hc. discriminate.
Qed.

End ServiceViewTheorems.

Section SummaryTheorems.
Import ServiceViews.
Variable parse : string -> option (list row).

(** X18.  The dashboard summary is returned exactly when the three loaders
    return; otherwise it throws the error of the first loader that fails, in
    the order overview, events, screens.  A returned summary is built from
    one consistent load: its daily data is the overview, its lists and totals
    are those of the loaded events and screens, topEvents holds every event,
    topScreens at most 20 screens and topFeatures at most 50 entries. *)
Theorem getDashboardSummary_outcome (today : Z) (d : Disk) :
  match Repository.loadOverviewData parse d,
        Repository.loadEventsData parse d,
        Repository.loadScreenViewsData parse d with
  | Throw msg, _, _ => getDashboardSummary parse today d = Throw msg
  | Ok _, Throw msg, _ => getDashboardSummary parse today d = Throw msg
  | Ok _, Ok _, Throw msg => getDashboardSummary parse today d = Throw msg
  | Ok overview, Ok events, Ok screenViews =>
      exists summary,
        getDashboardSummary parse today d = Ok summary
        /\ dailyData summary = overview
        /\ dateRange summary = RepositoryViews.getDefaultDateRange today d
        /\ totalScreenViews summary = sumOf views screenViews
        /\ totalEvents summary = sumOf eventCount events
        /\ topFeatures summary = Service.analyzeFeatureUsage events screenViews
        /\ featureUsageDetails summary = Repository.featureUsage events screenViews
        /\ ds_screenViewAnalysis summary
           = RepositoryViews.screenViewAnalysis screenViews events
        /\ ds_userEngagementAnalysis summary
           = RepositoryViews.userEngagementAnalysis events screenViews
        /\ engagementAnalysis summary = analyzeEngagement screenViews events
        /\ Permutation (topEvents summary) events
        /\ List.length (topScreens summary) <= 20
        /\ List.length (topFeatures summary) <= 50
  end.
Proof.
  unfold getDashboardSummary, RepositoryViews.getScreenViewAnalysis,
    RepositoryViews.getUserEngagementAnalysis, Repository.getFeatureUsageAnalysis.
  destruct (Repository.loadOverviewData parse d) as [overview|msg]; cbn [bind];
    [|destruct (Repository.loadEventsData parse d);
      destruct (Repository.loadScreenViewsData parse d); reflexivity].
  destruct (Repository.loadEventsData parse d) as [events|msg]; cbn [bind];
    [|destruct (Repository.loadScreenViewsData parse d); reflexivity].
  destruct (Repository.loadScreenViewsData parse d) as [screenViews|msg]; cbn [bind];
    [|reflexivity].
  eexists. split; [reflexivity|].
  cbn [dailyData dateRange totalScreenViews totalEvents topFeatures
       featureUsageDetails ds_screenViewAnalysis ds_userEngagementAnalysis
       engagementAnalysis topEvents topScreens].
  repeat split.
  - apply sortBy_perm.
  - apply firstn_le_length.
  - unfold Service.analyzeFeatureUsage. apply firstn_le_length.
Qed.


End SummaryTheorems.


(* ================================================================== *)
(** * Dates come back from their day number *)
(* ================================================================== *)

Section CalendarRoundTrip.
Local Open Scope Z_scope.










End CalendarRoundTrip.

Section DateStrings.







End DateStrings.

Section DateRangeTheorems.
Import Repository.
Variable parse : string -> option (list row).


End DateRangeTheorems.


(* ================================================================== *)
(** * What the locator returns *)
(* ================================================================== *)

(** X21.  The locator only returns entries of the folder: a returned path
    is that of an entry which is the pattern itself or passes the scan test,
    and it is the pattern's whenever the pattern is an entry, whatever else
    the folder holds; a folder without an accepted entry gives not-found. *)
Theorem findCSVFile_sound (d : Disk) (pattern : string) :
  (forall path,
      Repository.findCSVFile d pattern = Some path ->
      existsSync d = true
      /\ exists g, In g (readdirSync d) /\ path = pathJoin (csvDir d) g
                   /\ accepts pattern g = true)
  /\ (existsSync d = true -> In pattern (readdirSync d) ->
      Repository.findCSVFile d pattern = Some (pathJoin (csvDir d) pattern))
  /\ ((forall g, In g (readdirSync d) -> accepts pattern g = false) ->
      Repository.findCSVFile d pattern = None).
Proof.
  unfold Repository.findCSVFile.
  change (fun file : string =>
            startsWith (toLowerCase file) (toLowerCase (replace pattern ".csv" ""))
            && endsWith (toLowerCase file) ".csv") with (scanTest pattern).
  destruct (existsSync d); simpl.
  - destruct (existsb (String.eqb pattern) (readdirSync d)) eqn:Hexact.
    + apply existsb_exists in Hexact. destruct Hexact as (g & Hin & Heq).
      apply String.eqb_eq in Heq. subst g.
      split; [|split].
      * intros path H. injection H as <-. split; [reflexivity|].
        exists pattern. repeat split; auto.
        unfold accepts. rewrite String.eqb_refl. reflexivity.
      * reflexivity.
      * intros Hnone. specialize (Hnone pattern Hin).
        unfold accepts in Hnone. rewrite String.eqb_refl in Hnone. discriminate.
    + split; [|split].
      * intros path H.
        destruct (find (scanTest pattern) (readdirSync d)) as [g|] eqn:Hfind;
          [|discriminate].
        destruct (truthy g); [|discriminate]. injection H as <-.
        apply find_some in Hfind. destruct Hfind as [Hin Hg].
        split; [reflexivity|]. exists g. repeat split; auto.
        unfold accepts. rewrite Hg. apply orb_true_r.
      * intros _ Hin. exfalso.
        assert (Hc : existsb (String.eqb pattern) (readdirSync d) = true)
          by (apply existsb_exists; exists pattern; split;
              [exact Hin|apply String.eqb_refl]).
        congruence.
      * intros Hnone.
        destruct (find (scanTest pattern) (readdirSync d)) as [g|] eqn:Hfind;
          [|reflexivity].
        apply find_some in Hfind. destruct Hfind as [Hin Hg].
        specialize (Hnone g Hin). unfold accepts in Hnone.
        rewrite Hg, orb_true_r in Hnone. discriminate.
  - split; [intros path H; discriminate|]. split; [discriminate|reflexivity].
Qed.

Lemma findCSVFile_sound_witness :
  Repository.findCSVFile
    (folderOf "data" [("events_event_name2.csv", ""); ("Events_Event_name.csv", "")])
    "Events_Event_name.csv"
  = Some "data/Events_Event_name.csv".
Proof.
  apply (findCSVFile_sound
           (folderOf "data" [("events_event_name2.csv", ""); ("Events_Event_name.csv", "")])
           "Events_Event_name.csv").
  - reflexivity.
  - right. left. reflexivity.
Defined.

(* ================================================================== *)
(** * The summary map does not depend on the order of the events *)
(* ================================================================== *)

Section SummaryPermutation.






End SummaryPermutation.


Lemma screenViewBreakdown_spec_witness :
  map sb_screenClass
      (screenViewBreakdown
         (RepositoryViews.screenViewAnalysis [documentScreen; homeScreen] []))
  = ["HomeScreen"; "DocumentViewController"]
  /\ StronglySorted (mayPrecede RepositoryViews.byViews)
       (screenViewBreakdown
          (RepositoryViews.screenViewAnalysis [documentScreen; homeScreen] [])).
Proof.
  split; [reflexivity|].
  apply (screenViewBreakdown_spec [documentScreen; homeScreen] []).
  repeat constructor.
Defined.



